(** * Novel reading platform: the view layer of [views.py]

    A shallow embedding of the request handlers of [views.py] and the
    properties of their decision logic: catalogue filtering, chapter
    visibility, chapter ordering, moderation and the comment gate.

    Tables of the object mapper are finite maps from primary key to row,
    a query set is the finite map of the rows it selects, and a view is a
    computation over the store and the session's message queue that either
    returns a response or raises. *)

From Stdlib Require Import ZArith String Ascii List Bool Lia.
From stdpp Require Import base option list gmap fin_maps strings sorting.

Local Open Scope string_scope.
Local Open Scope Z_scope.

(** ** Text

    A [string] is read as a Python [str] over the Latin-1 block: the
    character of code [n] is the code point U+00n, and [String.length] is
    [len]. *)

Module Text.

Definition code (c : ascii) : N := N_of_ascii c.

(** [str.isspace] on one code point of the Latin-1 block: the characters
    [str.strip()] removes. *)
Definition isspace (c : ascii) : bool :=
  let n := code c in
  ((9 <=? n) && (n <=? 13) || (28 <=? n) && (n <=? 32)
   || (n =? 133) || (n =? 160))%N.

(** The decimal digits '0' to '9', the only ones [int()] reads in this
    block. *)
Definition isdecimal_char (c : ascii) : bool :=
  let n := code c in ((48 <=? n) && (n <=? 57))%N.

(** [str.isdigit] on one code point: the decimal digits and the
    superscript digits U+00B2, U+00B3 and U+00B9 (Numeric_Type=Digit). *)
Definition isdigit_char (c : ascii) : bool :=
  let n := code c in
  (isdecimal_char c || (n =? 178) || (n =? 179) || (n =? 185))%N.

Fixpoint forallb_string (p : ascii -> bool) (s : string) : bool :=
  match s with
  | EmptyString => true
  | String c s' => p c && forallb_string p s'
  end.

(** [s.isdigit()]: every character is a digit and there is at least one. *)
Definition isdigit (s : string) : bool :=
  match s with
  | EmptyString => false
  | _ => forallb_string isdigit_char s
  end.

(** Truth value of a [str]. *)
Definition truthy (s : string) : bool :=
  match s with
  | EmptyString => false
  | _ => true
  end.

Fixpoint lstrip_by (space : ascii -> bool) (s : string) : string :=
  match s with
  | String c s' => if space c then lstrip_by space s' else s
  | EmptyString => EmptyString
  end.

Fixpoint rstrip_by (space : ascii -> bool) (s : string) : string :=
  match s with
  | EmptyString => EmptyString
  | String c s' =>
      match rstrip_by space s' with
      | EmptyString => if space c then EmptyString else String c EmptyString
      | r => String c r
      end
  end.

(** [s.strip()] *)
Definition strip (s : string) : string :=
  rstrip_by isspace (lstrip_by isspace s).

(** The white space [int()] skips around a literal: the C locale's below
    U+007F, every space character above. *)
Definition int_space (c : ascii) : bool :=
  let n := code c in
  ((9 <=? n) && (n <=? 13) || (n =? 32) || (n =? 133) || (n =? 160))%N.

Definition digit_value (c : ascii) : Z := Z.of_N (code c) - 48.

(** The digits of an integer literal, most significant first, after the
    sign: decimal digits, with single underscores allowed between two
    digits. [prev_digit] tells whether the previous character was a
    digit. *)
Fixpoint int_digits (prev_digit : bool) (acc : Z) (s : string) : option Z :=
  match s with
  | EmptyString => if prev_digit then Some acc else None
  | String c s' =>
      if isdecimal_char c then int_digits true (10 * acc + digit_value c) s'
      else if (code c =? 95)%N && prev_digit then
        match s' with
        | String d _ => if isdecimal_char d then int_digits false acc s' else None
        | EmptyString => None
        end
      else None
  end.

(** [int(s)] in base ten; [None] is [ValueError]. Surrounding white space
    is dropped, then an optional sign is read, then the digits. *)
Definition int (s : string) : option Z :=
  match rstrip_by int_space (lstrip_by int_space s) with
  | String c s' =>
      if (code c =? 45)%N then Z.opp <$> int_digits false 0 s'
      else if (code c =? 43)%N then int_digits false 0 s'
      else int_digits false 0 (String c s')
  | EmptyString => None
  end.

(** Case folding of the [LIKE] operator of the default SQLite store, to
    which [__icontains] is translated: the letters A to Z. *)
Definition lower_char (c : ascii) : ascii :=
  let n := code c in
  if ((65 <=? n) && (n <=? 90))%N then ascii_of_N (n + 32) else c.

Fixpoint lower (s : string) : string :=
  match s with
  | EmptyString => EmptyString
  | String c s' => String (lower_char c) (lower s')
  end.

(** [kw] occurs in [s] as a contiguous substring. *)
Fixpoint contains (kw s : string) : bool :=
  String.prefix kw s ||
  match s with
  | EmptyString => false
  | String _ s' => contains kw s'
  end.

(** The [__icontains] lookup: substring match up to case. *)
Definition icontains (field kw : string) : bool :=
  contains (lower kw) (lower field).

(** [s.split(sep)] for a one-character separator. *)
Fixpoint split (sep : ascii) (s : string) : list string :=
  match s with
  | EmptyString => [EmptyString]
  | String c s' =>
      if bool_decide (c = sep) then EmptyString :: split sep s'
      else match split sep s' with
           | piece :: pieces => String c piece :: pieces
           | [] => [String c EmptyString]
           end
  end.

End Text.

(** ** Data model *)

(** A row of the authentication collaborator's user table, as far as the
    views read it. *)
Record User := { user_id : Z; is_superuser : bool }.

(** The rows carry the fields the views pass to [objects.create] and read
    back; a foreign key holds the primary key of the row it points to.
    Field names are prefixed with the model where two models share one. *)

(** Modelled from the spec: [models.py] is not part of the sources at
    hand and the views never read a category's fields; the specification
    gives a category an id and a name. *)
Record Category := { cat_name : string }.

Record Novel := {
  novel_title : string;
  novel_author : string;
  novel_category : Z;
  novel_intro : string;
  novel_uploader : Z;
  novel_is_approved : bool
}.

Record Chapter := {
  chapter_novel : Z;
  chapter_title : string;
  sort_num : Z;
  chapter_content : string;
  chapter_uploader : Z;
  chapter_is_approved : bool
}.

Record Comment := {
  comment_chapter : Z;
  comment_user : Z;
  comment_content : string;
  comment_is_approved : bool
}.

(** The store: one table per model, keyed by primary key. *)
Record database := {
  novels : gmap Z Novel;
  chapters : gmap Z Chapter;
  categories : gmap Z Category;
  comments : gmap Z Comment
}.

(** ** Requests, responses and effects *)

(** [request.method]: ['POST'], or any other method, which the views
    treat as they treat ['GET']. *)
Inductive http_method := GET_method | POST_method.

(** [request.user] is [None] for the anonymous user; [GET] and [POST] are
    the query dictionaries. *)
Record HttpRequest := {
  user : option User;
  method : http_method;
  GET : gmap string string;
  POST : gmap string string
}.

(** [querydict.get(key, dflt)] *)
Definition get_or (q : gmap string string) (key dflt : string) : string :=
  from_option id dflt (q !! key).

(** Truth value of what [querydict.get(key)] returns: [None] and the empty
    string are false. *)
Definition truth (v : option string) : bool :=
  from_option Text.truthy false v.

(** Exceptions a view lets escape. [Http404] is the one
    [django.shortcuts.get_object_or_404] raises; [NameError] is the
    interpreter's for a name the module does not bind. *)
Inductive exn :=
| Http404
| ValueError
| NameError (name : string).

(** Texts handed to [messages.success] and [messages.error]. *)
Inductive notice :=
| NovelEdited        (* '小说信息修改成功！' *)
| ChapterEdited      (* '章节修改成功！需管理员重新审核' *)
| CommentEmpty       (* '评论内容不能为空！' *)
| CommentTooLong     (* '评论内容不能超过500字！' *)
| CommentPosted      (* '评论发表成功！' *)
| NovelApproved      (* '小说审核通过！' *)
| ChapterApproved.   (* '章节审核通过！' *)

Inductive level := SUCCESS | ERROR.

(** The ['error'] entry of a form's context. *)
Inductive form_error :=
| NovelFieldsRequired                            (* '标题、作者、分类不能为空！' *)
| ChapterFieldsRequired                          (* '标题、排序号、内容均不能为空！' *)
| SortNumNotInteger                              (* '排序号必须是整数！' *)
| SortNumExistsAmong (n : Z) (existing : list Z) (* f'排序号 {sort_num} 已存在！该小说已有排序号：{sorted(...)}' *)
| SortNumExists (n : Z).                         (* f'排序号 {sort_num} 已存在！' *)

(** Bodies of the [HttpResponseForbidden] responses. *)
Inductive denial :=
| CannotEditNovel            (* '你没有权限编辑该小说！' *)
| CannotAddChapter           (* '你没有权限为该小说添加章节！' *)
| CannotEditChapter          (* '你没有权限编辑该章节！' *)
| OnlyAdminApprovesNovel     (* '仅管理员可审核小说！' *)
| OnlyAdminApprovesChapter.  (* '仅管理员可审核章节！' *)

(** A model instance is its primary key with its row. *)
Definition instance (A : Type) : Type := Z * A.

(** The template rendered, with its context. *)
Inductive page :=
| novel_list_html (novels : gmap Z Novel) (categories : gmap Z Category)
    (selected_category keyword : string)
| edit_novel_html (error : option form_error) (novel : instance Novel)
    (categories : gmap Z Category)
| chapter_list_html (novel : instance Novel) (chapters : gmap Z Chapter)
| add_chapter_html (novel : instance Novel) (error : option form_error)
    (existing_sort_nums : list Z) (next_sort_num : Z)
| edit_chapter_html (chapter : instance Chapter) (error : option form_error)
| chapter_detail_html (chapter : instance Chapter) (novel : Z)
    (comments : gmap Z Comment)
    (next_chapter prev_chapter : option (instance Chapter))
    (chapter_paragraphs : list string).

(** Named routes a view redirects to; [login_url] is where
    [login_required] sends an anonymous request. *)
Inductive route :=
| login_url
| novel_list_url
| chapter_list_url (novel_id : Z)
| chapter_detail_url (chapter_id : Z).

Inductive HttpResponse :=
| render (p : page)
| redirect (to : route)
| HttpResponseForbidden (why : denial).

(** What a request runs against: the store and the message queue of the
    session. *)
Record state := {
  db : database;
  queue : list (level * notice)
}.

(** A view body: it may read and write the state, and ends with a value
    or an exception. Writes made before an exception stay. *)
Definition M (A : Type) : Type := state -> (exn + A) * state.

#[global] Instance M_ret : MRet M := fun A (a : A) s => (inr a, s).

#[global] Instance M_bind : MBind M := fun A B (f : A -> M B) (m : M A) s =>
  match m s with
  | (inr a, s') => f a s'
  | (inl e, s') => (inl e, s')
  end.

Definition raise {A} (e : exn) : M A := fun s => (inl e, s).

Definition read_db : M database := fun s => (inr (db s), s).

Definition write_db (d : database) : M unit :=
  fun s => (inr tt, {| db := d; queue := queue s |}).

Definition add_message (l : level) (n : notice) : M unit :=
  fun s => (inr tt, {| db := db s; queue := queue s ++ [(l, n)] |}).

(** [int(v)] where a failure is not caught. *)
Definition int_or_raise (v : string) : M Z :=
  match Text.int v with
  | Some k => mret k
  | None => raise ValueError
  end.

(** [get_object_or_404(Model, id=pk)] *)
Definition get_object_or_404 {A} (table : database -> gmap Z A) (pk : Z)
  : M (instance A) :=
  d ← read_db;
  match table d !! pk with
  | Some row => mret (pk, row)
  | None => raise Http404
  end.

(** The names bound in the module when a view runs: its imports and its
    own functions. *)
Definition module_names : list string :=
  [ "render"; "get_object_or_404"; "redirect";
    "authenticate"; "login"; "logout";
    "login_required"; "UserCreationForm"; "messages";
    "HttpResponseForbidden"; "HttpResponseBadRequest"; "HttpResponse";
    "Novel"; "Chapter"; "Category"; "Comment"; "Q";
    "novel_list"; "login_view"; "logout_view"; "register_view";
    "add_novel"; "edit_novel"; "delete_novel";
    "chapter_list"; "add_chapter"; "edit_chapter"; "delete_chapter";
    "chapter_detail"; "add_comment"; "delete_comment";
    "approve_novel"; "approve_chapter" ].

(** [raise Name(...)] in a view body: the name is looked up in the module
    first, and an unbound one is a [NameError]. *)
Definition raise_named {A} (name : string) (e : exn) : M A :=
  if bool_decide (name ∈ module_names) then raise e
  else raise (NameError name).

(** The [@login_required] decorator. *)
Definition login_required (view : User -> M HttpResponse)
    (request : HttpRequest) : M HttpResponse :=
  match user request with
  | Some u => view u
  | None => mret (redirect login_url)
  end.

(** ** Query sets *)

(** Primary key given to the next row: one more than the largest in use. *)
Definition next_pk {A} (table : gmap Z A) : Z :=
  1 + foldr Z.max 0 (map_to_list table).*1.

(** [Model.objects.create(...)] on one table. *)
Definition create {A} (row : A) (table : gmap Z A) : gmap Z A :=
  <[next_pk table := row]> table.

(** [qs.values_list('sort_num', flat=True)] *)
Definition values_list_sort_num (qs : gmap Z Chapter) : list Z :=
  sort_num <$> (map_to_list qs).*2.

(** [max(xs)] of a non-empty sequence, [d] for the empty one. *)
Definition max_list (d : Z) (xs : list Z) : Z :=
  match xs with
  | [] => d
  | x :: xs' => foldr Z.max x xs'
  end.

(** [qs.order_by(key).first()]: a row of least [key], if any. *)
Definition order_by_first (key : Chapter -> Z) (qs : gmap Z Chapter)
  : option (instance Chapter) :=
  foldr (fun kv best =>
           match best with
           | Some b => if key kv.2 <? key b.2 then Some kv else best
           | None => Some kv
           end) None (map_to_list qs).

(** [qs.exists()] *)
Definition exists_ {A} (qs : gmap Z A) : bool :=
  match map_to_list qs with
  | [] => false
  | _ :: _ => true
  end.

(** [novel.chapters]: the chapters whose foreign key is the novel. *)
Definition chapters_of (novel_id : Z) (d : database) : gmap Z Chapter :=
  filter (fun kv => chapter_novel kv.2 = novel_id) (chapters d).

(** [chapter.comments] *)
Definition comments_of (chapter_id : Z) (d : database) : gmap Z Comment :=
  filter (fun kv => comment_chapter kv.2 = chapter_id) (comments d).

(** [qs.filter(is_approved=True)] on chapters and on comments. *)
Definition approved_chapters (qs : gmap Z Chapter) : gmap Z Chapter :=
  filter (fun kv => chapter_is_approved kv.2 = true) qs.

Definition approved_comments (qs : gmap Z Comment) : gmap Z Comment :=
  filter (fun kv => comment_is_approved kv.2 = true) qs.

(** [instance.save()] of a fetched row. *)
Definition save_novel (novel : instance Novel) : M unit :=
  d ← read_db;
  write_db {| novels := <[novel.1 := novel.2]> (novels d);
              chapters := chapters d;
              categories := categories d;
              comments := comments d |}.

Definition save_chapter (chapter : instance Chapter) : M unit :=
  d ← read_db;
  write_db {| novels := novels d;
              chapters := <[chapter.1 := chapter.2]> (chapters d);
              categories := categories d;
              comments := comments d |}.

(** ** Views *)

(** The novel list page. *)
Definition novel_list (request : HttpRequest) : M HttpResponse :=
  let category_id := get_or (GET request) "category" "" in
  let keyword := get_or (GET request) "keyword" "" in
  d ← read_db;
  let novels0 := filter (fun kv => novel_is_approved kv.2 = true) (novels d) in
  novels1 ←
    (if Text.truthy category_id && Text.isdigit category_id
     then k ← int_or_raise category_id;
          mret (filter (fun kv => novel_category kv.2 = k) novels0)
     else mret novels0);
  let novels2 :=
    if Text.truthy keyword
    then filter (fun kv => Text.icontains (novel_title kv.2) keyword
                           || Text.icontains (novel_author kv.2) keyword = true)
                novels1
    else novels1 in
  mret (render (novel_list_html novels2 (categories d) category_id keyword)).

(** Editing a novel. *)
Definition edit_novel (request : HttpRequest) (novel_id : Z) : M HttpResponse :=
  login_required (fun request_user =>
    novel ← get_object_or_404 novels novel_id;
    if bool_decide (novel_uploader novel.2 ≠ user_id request_user)
       && negb (is_superuser request_user)
    then mret (HttpResponseForbidden CannotEditNovel)
    else
      match method request with
      | POST_method =>
          let title := POST request !! "title" in
          let author := POST request !! "author" in
          let category_id := POST request !! "category" in
          let intro := get_or (POST request) "intro" "" in
          if negb (truth title) || negb (truth author) || negb (truth category_id)
          then d ← read_db;
               mret (render (edit_novel_html (Some NovelFieldsRequired) novel
                               (categories d)))
          else
            pk ← int_or_raise (default "" category_id);
            category ← get_object_or_404 categories pk;
            save_novel (novel.1,
                        {| novel_title := default "" title;
                           novel_author := default "" author;
                           novel_category := category.1;
                           novel_intro := intro;
                           novel_uploader := novel_uploader novel.2;
                           novel_is_approved := novel_is_approved novel.2 |});;
            add_message SUCCESS NovelEdited;;
            mret (redirect (chapter_list_url novel.1))
      | GET_method =>
          d ← read_db;
          mret (render (edit_novel_html None novel (categories d)))
      end) request.

(** The chapter list of a novel. *)
Definition chapter_list (request : HttpRequest) (novel_id : Z) : M HttpResponse :=
  login_required (fun request_user =>
    novel ← get_object_or_404 novels novel_id;
    d ← read_db;
    let chapters :=
      if bool_decide (novel_uploader novel.2 ≠ user_id request_user)
         && negb (is_superuser request_user)
      then approved_chapters (chapters_of novel.1 d)
      else chapters_of novel.1 d in
    mret (render (chapter_list_html novel chapters))) request.

(** [max(existing_sort_nums) + 1 if existing_sort_nums else 1] *)
Definition next_sort_num_of (existing_sort_nums : list Z) : Z :=
  match existing_sort_nums with
  | [] => 1
  | _ :: _ => max_list 0 existing_sort_nums + 1
  end.

(** Adding a chapter. *)
Definition add_chapter (request : HttpRequest) (novel_id : Z) : M HttpResponse :=
  login_required (fun request_user =>
    novel ← get_object_or_404 novels novel_id;
    if bool_decide (novel_uploader novel.2 ≠ user_id request_user)
    then mret (HttpResponseForbidden CannotAddChapter)
    else
      d ← read_db;
      let existing_sort_nums := values_list_sort_num (chapters_of novel.1 d) in
      let next_sort_num := next_sort_num_of existing_sort_nums in
      match method request with
      | POST_method =>
          let title := POST request !! "title" in
          let sort_num_field := POST request !! "sort_num" in
          let content := POST request !! "content" in
          if negb (truth title) || negb (truth sort_num_field) || negb (truth content)
          then mret (render (add_chapter_html novel (Some ChapterFieldsRequired)
                               existing_sort_nums next_sort_num))
          else
            match Text.int (default "" sort_num_field) with
            | None =>
                mret (render (add_chapter_html novel (Some SortNumNotInteger)
                                existing_sort_nums next_sort_num))
            | Some sort_num' =>
                if exists_ (filter (fun kv => sort_num kv.2 = sort_num')
                              (chapters_of novel.1 d))
                then mret (render (add_chapter_html novel
                                     (Some (SortNumExistsAmong sort_num'
                                              (merge_sort Z.le existing_sort_nums)))
                                     existing_sort_nums next_sort_num))
                else
                  write_db {| novels := novels d;
                              chapters :=
                                create {| chapter_novel := novel.1;
                                          chapter_title := default "" title;
                                          sort_num := sort_num';
                                          chapter_content := default "" content;
                                          chapter_uploader := user_id request_user;
                                          chapter_is_approved := false |}
                                       (chapters d);
                              categories := categories d;
                              comments := comments d |};;
                  mret (redirect (chapter_list_url novel.1))
            end
      | GET_method =>
          mret (render (add_chapter_html novel None existing_sort_nums next_sort_num))
      end) request.

(** Editing a chapter. *)
Definition edit_chapter (request : HttpRequest) (chapter_id : Z) : M HttpResponse :=
  login_required (fun request_user =>
    chapter ← get_object_or_404 chapters chapter_id;
    if bool_decide (chapter_uploader chapter.2 ≠ user_id request_user)
       && negb (is_superuser request_user)
    then mret (HttpResponseForbidden CannotEditChapter)
    else
      match method request with
      | POST_method =>
          let title := POST request !! "title" in
          let sort_num_field := POST request !! "sort_num" in
          let content := POST request !! "content" in
          if negb (truth title) || negb (truth sort_num_field) || negb (truth content)
          then mret (render (edit_chapter_html chapter (Some ChapterFieldsRequired)))
          else
            match Text.int (default "" sort_num_field) with
            | None =>
                mret (render (edit_chapter_html chapter (Some SortNumNotInteger)))
            | Some sort_num' =>
                d ← read_db;
                if exists_ (filter (fun kv => kv.1 ≠ chapter.1)
                              (filter (fun kv => sort_num kv.2 = sort_num')
                                 (chapters_of (chapter_novel chapter.2) d)))
                then mret (render (edit_chapter_html chapter
                                     (Some (SortNumExists sort_num'))))
                else
                  save_chapter (chapter.1,
                                {| chapter_novel := chapter_novel chapter.2;
                                   chapter_title := default "" title;
                                   sort_num := sort_num';
                                   chapter_content := default "" content;
                                   chapter_uploader := chapter_uploader chapter.2;
                                   chapter_is_approved := false |});;
                  add_message SUCCESS ChapterEdited;;
                  mret (redirect (chapter_detail_url chapter.1))
            end
      | GET_method => mret (render (edit_chapter_html chapter None))
      end) request.

(** The keyword arguments collected in the [chapter_filter] dictionary:
    ['novel'] is always there, ['is_approved'] only when it was added. *)
Record lookup_kwargs := {
  kw_novel : Z;
  kw_is_approved : option bool
}.

Definition matches (kw : lookup_kwargs) (c : Chapter) : Prop :=
  chapter_novel c = kw_novel kw /\
  from_option (fun b => chapter_is_approved c = b) True (kw_is_approved kw).

#[global] Instance matches_dec kw c : Decision (matches kw c).
Proof. unfold matches. destruct (kw_is_approved kw); simpl; apply _. Defined.

(** The chapter page. A foreign key is enforced by the store, so
    [chapter.novel] is the novel of key [chapter_novel]. *)
Definition chapter_detail (request : HttpRequest) (chapter_id : Z) : M HttpResponse :=
  chapter ← get_object_or_404 chapters chapter_id;
  let request_user := user request in
  let can_view := false in
  let can_view :=
    match request_user with
    | Some u =>
        if is_superuser u || bool_decide (chapter_uploader chapter.2 = user_id u)
        then true else can_view
    | None => can_view
    end in
  let can_view := if chapter_is_approved chapter.2 then true else can_view in
  if negb can_view then raise_named "Http404" Http404
  else
    d ← read_db;
    let comments := approved_comments (comments_of chapter.1 d) in
    let chapter_paragraphs :=
      if Text.truthy (chapter_content chapter.2)
      then List.filter Text.truthy
             (Text.strip <$> Text.split "010"%char (chapter_content chapter.2))
      else [] in
    let chapter_filter :=
      {| kw_novel := chapter_novel chapter.2; kw_is_approved := None |} in
    let chapter_filter :=
      if negb can_view
      then {| kw_novel := kw_novel chapter_filter; kw_is_approved := Some true |}
      else chapter_filter in
    let prev_chapter :=
      order_by_first (fun c => - sort_num c)
        (filter (fun kv => sort_num kv.2 < sort_num chapter.2
                           /\ matches chapter_filter kv.2) (chapters d)) in
    let next_chapter :=
      order_by_first sort_num
        (filter (fun kv => sort_num kv.2 > sort_num chapter.2
                           /\ matches chapter_filter kv.2) (chapters d)) in
    mret (render (chapter_detail_html chapter (chapter_novel chapter.2) comments
                    next_chapter prev_chapter chapter_paragraphs)).

(** Modelled from the spec: the [Comment] model of [models.py] is not part
    of the sources at hand; the default of its [is_approved] column is the
    reference default the specification names, immediately visible. *)
Definition comment_is_approved_default : bool := true.

(** Posting a comment. *)
Definition add_comment (request : HttpRequest) (chapter_id : Z) : M HttpResponse :=
  login_required (fun request_user =>
    chapter ← get_object_or_404 chapters chapter_id;
    match method request with
    | POST_method =>
        let content := Text.strip (get_or (POST request) "content" "") in
        if negb (Text.truthy content)
        then add_message ERROR CommentEmpty;;
             mret (redirect (chapter_detail_url chapter_id))
        else if Z.of_nat (String.length content) >? 500
        then add_message ERROR CommentTooLong;;
             mret (redirect (chapter_detail_url chapter_id))
        else
          d ← read_db;
          write_db {| novels := novels d;
                      chapters := chapters d;
                      categories := categories d;
                      comments :=
                        create {| comment_chapter := chapter.1;
                                  comment_user := user_id request_user;
                                  comment_content := content;
                                  comment_is_approved := comment_is_approved_default |}
                               (comments d) |};;
          add_message SUCCESS CommentPosted;;
          mret (redirect (chapter_detail_url chapter_id))
    | GET_method => mret (redirect (chapter_detail_url chapter_id))
    end) request.

(** Approving a novel (superusers only). *)
Definition approve_novel (request : HttpRequest) (novel_id : Z) : M HttpResponse :=
  login_required (fun request_user =>
    if negb (is_superuser request_user)
    then mret (HttpResponseForbidden OnlyAdminApprovesNovel)
    else
      novel ← get_object_or_404 novels novel_id;
      save_novel (novel.1,
                  {| novel_title := novel_title novel.2;
                     novel_author := novel_author novel.2;
                     novel_category := novel_category novel.2;
                     novel_intro := novel_intro novel.2;
                     novel_uploader := novel_uploader novel.2;
                     novel_is_approved := true |});;
      add_message SUCCESS NovelApproved;;
      mret (redirect novel_list_url)) request.

(** Approving a chapter (superusers only). *)
Definition approve_chapter (request : HttpRequest) (chapter_id : Z) : M HttpResponse :=
  login_required (fun request_user =>
    if negb (is_superuser request_user)
    then mret (HttpResponseForbidden OnlyAdminApprovesChapter)
    else
      chapter ← get_object_or_404 chapters chapter_id;
      save_chapter (chapter.1,
                    {| chapter_novel := chapter_novel chapter.2;
                       chapter_title := chapter_title chapter.2;
                       sort_num := sort_num chapter.2;
                       chapter_content := chapter_content chapter.2;
                       chapter_uploader := chapter_uploader chapter.2;
                       chapter_is_approved := true |});;
      add_message SUCCESS ChapterApproved;;
      mret (redirect (chapter_list_url (chapter_novel chapter.2)))) request.

(** ** Running a view *)

(** The response of a run, or the exception that escaped. *)
Definition outcome {A} (r : (exn + A) * state) : exn + A := r.1.

(** The state a run leaves. *)
Definition final {A} (r : (exn + A) * state) : state := r.2.

(** [u] is the uploader of the novel or a superuser: the viewers the
    chapter list shows pending chapters to. *)
Definition manages (u : User) (n : Novel) : Prop :=
  novel_uploader n = user_id u \/ is_superuser u = true.

(** The chapter-list rule for any viewer, anonymous included: a chapter
    of the novel is listed when it is approved, or when the viewer is the
    novel's uploader or a superuser. *)
Definition listed_for (viewer : option User) (n : Novel) (c : Chapter) : Prop :=
  chapter_is_approved c = true \/
  match viewer with
  | Some u => manages u n
  | None => False
  end.

(** [m] is the largest [sort_num] among the chapters of the novel. *)
Definition is_max_sort_num (d : database) (novel_id m : Z) : Prop :=
  (exists pk c, chapters d !! pk = Some c /\ chapter_novel c = novel_id
                /\ sort_num c = m) /\
  (forall pk c, chapters d !! pk = Some c -> chapter_novel c = novel_id ->
                sort_num c <= m).

(** Another chapter of the novel, not the one of key [excluding], already
    has [sort_num = candidate]. *)
Definition duplicate_ordering (d : database) (novel_id candidate : Z)
    (excluding : option Z) : Prop :=
  exists pk c, chapters d !! pk = Some c /\ chapter_novel c = novel_id
               /\ sort_num c = candidate /\ Some pk <> excluding.

#[global] Instance manages_dec u n : Decision (manages u n).
Proof. unfold manages. apply _. Defined.

(** A viewer may see the chapter page: the chapter is approved, or the
    viewer is signed in and is a superuser or the chapter's uploader. *)
Definition can_view (viewer : option User) (c : Chapter) : Prop :=
  chapter_is_approved c = true \/
  exists u, viewer = Some u /\
            (is_superuser u = true \/ chapter_uploader c = user_id u).

(** The fields of a chapter form that passed the emptiness check. *)
Definition chapter_form (request : HttpRequest) (title candidate content : string) : Prop :=
  method request = POST_method /\
  POST request !! "title" = Some title /\ title <> "" /\
  POST request !! "sort_num" = Some candidate /\ candidate <> "" /\
  POST request !! "content" = Some content /\ content <> "".

(** The fields of a novel form that passed the emptiness check. *)
Definition novel_form (request : HttpRequest) (title author category : string) : Prop :=
  method request = POST_method /\
  POST request !! "title" = Some title /\ title <> "" /\
  POST request !! "author" = Some author /\ author <> "" /\
  POST request !! "category" = Some category /\ category <> "".

(** Where [add_comment] always ends: back on the chapter page. *)
Definition comment_redirect (chapter_id : Z) : exn + HttpResponse :=
  inr (redirect (chapter_detail_url chapter_id)).

(** The flag [can_view] as the view computes it. *)
Definition can_view_flag (viewer : option User) (c : Chapter) : bool :=
  let can_view := false in
  let can_view :=
    match viewer with
    | Some u =>
        if is_superuser u || bool_decide (chapter_uploader c = user_id u)
        then true else can_view
    | None => can_view
    end in
  if chapter_is_approved c then true else can_view.

(** What a response offers as next and as previous chapter. *)
Definition next_chapter_shown (r : exn + HttpResponse) : option (instance Chapter) :=
  match r with
  | inr (render (chapter_detail_html _ _ _ next_chapter _ _)) => next_chapter
  | _ => None
  end.

Definition prev_chapter_shown (r : exn + HttpResponse) : option (instance Chapter) :=
  match r with
  | inr (render (chapter_detail_html _ _ _ _ prev_chapter _)) => prev_chapter
  | _ => None
  end.

(** ** Readings that the code does not bear out

    Three statements about the views in their most literal reading; each
    is refuted below on the sample store. *)

(** The chapter list is served to every viewer, signed in or not, under
    the chapter-list rule. *)
Definition chapter_list_open_to_all : Prop :=
  forall request novel_id n s,
    novels (db s) !! novel_id = Some n ->
    exists listed,
      outcome (chapter_list request novel_id s)
        = inr (render (chapter_list_html (novel_id, n) listed)) /\
      forall pk c, listed !! pk = Some c <->
        chapters (db s) !! pk = Some c /\ chapter_novel c = novel_id /\
        listed_for (user request) n c.

(** Approval succeeds only for a superuser, every caller who is not one is
    answered Forbidden, and approving what is approved changes nothing. *)
Definition approval_forbidden_to_all_others : Prop :=
  forall request pk s,
    (outcome (approve_novel request pk s) = inr (redirect novel_list_url) ->
     exists u, user request = Some u /\ is_superuser u = true) /\
    ((forall u, user request = Some u -> is_superuser u = false) ->
     outcome (approve_novel request pk s)
       = inr (HttpResponseForbidden OnlyAdminApprovesNovel) /\
     outcome (approve_chapter request pk s)
       = inr (HttpResponseForbidden OnlyAdminApprovesChapter)) /\
    (forall u n, user request = Some u -> is_superuser u = true ->
       novels (db s) !! pk = Some n -> novel_is_approved n = true ->
       outcome (approve_novel request pk s) = inr (redirect novel_list_url) /\
       db (final (approve_novel request pk s)) = db s).

(** The comment gate measures the text as submitted: more than 500
    characters are refused as too long, exactly 500 are accepted. *)
Definition comment_gate_on_submitted_text : Prop :=
  forall request u chapter_id c s text,
    user request = Some u -> method request = POST_method ->
    chapters (db s) !! chapter_id = Some c ->
    POST request !! "content" = Some text ->
    let r := add_comment request chapter_id s in
    (Text.strip text = "" ->
     queue (final r) = (queue s ++ [(ERROR, CommentEmpty)])%list /\
     db (final r) = db s) /\
    ((String.length text > 500)%nat ->
     queue (final r) = (queue s ++ [(ERROR, CommentTooLong)])%list /\
     db (final r) = db s) /\
    (String.length text = 500%nat ->
     queue (final r) = (queue s ++ [(SUCCESS, CommentPosted)])%list /\
     exists pk posted,
       comments (db s) !! pk = None /\
       comments (db (final r)) !! pk = Some posted /\
       comment_chapter posted = chapter_id /\ comment_user posted = user_id u).

(** ** A sample store

    One approved novel by user 7 with three chapters, the middle one
    pending, and one pending novel by user 8. *)

Module Sample.

Definition dune : Novel :=
  {| novel_title := "Dune"; novel_author := "Herbert"; novel_category := 1;
     novel_intro := "Arrakis"; novel_uploader := 7; novel_is_approved := true |}.

Definition emma : Novel :=
  {| novel_title := "Emma"; novel_author := "Austen"; novel_category := 2;
     novel_intro := ""; novel_uploader := 8; novel_is_approved := false |}.

Definition chapter_of_dune (n : Z) (ok : bool) : Chapter :=
  {| chapter_novel := 1; chapter_title := "Book"; sort_num := n;
     chapter_content := "A beginning"; chapter_uploader := 7;
     chapter_is_approved := ok |}.

Definition store : database :=
  {| novels := {[ 1 := dune; 2 := emma ]};
     chapters := {[ 10 := chapter_of_dune 1 true;
                    11 := chapter_of_dune 2 false;
                    12 := chapter_of_dune 3 true ]};
     categories := {[ 1 := {| cat_name := "Science fiction" |};
                      2 := {| cat_name := "Classics" |} ]};
     comments := ∅ |}.

Definition start : state := {| db := store; queue := [] |}.

Definition author : User := {| user_id := 7; is_superuser := false |}.
Definition reader : User := {| user_id := 9; is_superuser := false |}.
Definition admin : User := {| user_id := 1; is_superuser := true |}.

Definition get (who : option User) (query : gmap string string) : HttpRequest :=
  {| user := who; method := GET_method; GET := query; POST := ∅ |}.

Definition post (who : option User) (form : gmap string string) : HttpRequest :=
  {| user := who; method := POST_method; GET := ∅; POST := form |}.

(** The one-character string U+00B2, superscript two. *)
Definition superscript_two : string := String "178"%char EmptyString.

Fixpoint replicate_char (n : nat) (c : ascii) : string :=
  match n with
  | O => EmptyString
  | S n' => String c (replicate_char n' c)
  end.

(** Five hundred letters followed by one space: 501 characters. *)
Definition padded_comment : string :=
  replicate_char 500 "a"%char ++ " ".

End Sample.

(** ** Views that create and delete

    [add_novel], [delete_novel], [delete_chapter] and [delete_comment].
    Their texts are of a vocabulary of their own; a view of this group
    ends with its response and the texts it handed to [messages.success],
    in the order of the calls. *)

Inductive management_notice :=
| NovelCreated       (* '小说创建成功！请添加章节' *)
| NovelDeleted       (* '小说已删除！' *)
| ChapterDeleted     (* '章节已删除！' *)
| CommentDeleted.    (* '评论已删除！' *)

Inductive management_denial :=
| CannotDeleteNovel      (* '你没有权限删除该小说！' *)
| CannotDeleteChapter    (* '你没有权限删除该章节！' *)
| CannotDeleteComment.   (* '你没有权限删除该评论！' *)

Inductive management_response :=
| add_novel_html (error : option form_error) (categories : gmap Z Category)
| redirect_to (to : route)
| forbidden (why : management_denial).

Record reply := {
  response : management_response;
  flashed : list (level * management_notice)
}.

(** A response with no message. *)
Definition answer (r : management_response) : reply :=
  {| response := r; flashed := [] |}.

(** The [@login_required] decorator on a view of this group. *)
Definition login_required_reply (view : User -> M reply)
    (request : HttpRequest) : M reply :=
  match user request with
  | Some u => view u
  | None => mret (answer (redirect_to login_url))
  end.

(** Modelled from the spec: [models.py] is not part of the sources at
    hand; deleting a novel cascades to its chapters and deleting a chapter
    cascades to its comments, as the specification has it. *)
Definition delete_chapter_rows (chapter_id : Z) (d : database) : database :=
  {| novels := novels d;
     chapters := delete chapter_id (chapters d);
     categories := categories d;
     comments := filter (fun kv => comment_chapter kv.2 ≠ chapter_id) (comments d) |}.

(** Modelled from the spec: the cascade of [novel.delete()], see
    [delete_chapter_rows]. *)
Definition delete_novel_rows (novel_id : Z) (d : database) : database :=
  {| novels := delete novel_id (novels d);
     chapters := filter (fun kv => chapter_novel kv.2 ≠ novel_id) (chapters d);
     categories := categories d;
     comments := filter (fun kv => chapters_of novel_id d !! comment_chapter kv.2 = None)
                   (comments d) |}.

(** [comment.delete()]: nothing hangs on a comment. *)
Definition delete_comment_row (comment_id : Z) (d : database) : database :=
  {| novels := novels d;
     chapters := chapters d;
     categories := categories d;
     comments := delete comment_id (comments d) |}.

(** Adding a novel. *)
Definition add_novel (request : HttpRequest) : M reply :=
  login_required_reply (fun request_user =>
    match method request with
    | POST_method =>
        let title := POST request !! "title" in
        let author := POST request !! "author" in
        let category_id := POST request !! "category" in
        let intro := get_or (POST request) "intro" "" in
        if negb (truth title) || negb (truth author) || negb (truth category_id)
        then d ← read_db;
             mret (answer (add_novel_html (Some NovelFieldsRequired) (categories d)))
        else
          pk ← int_or_raise (default "" category_id);
          category ← get_object_or_404 categories pk;
          d ← read_db;
          let novel_id := next_pk (novels d) in
          write_db {| novels :=
                        create {| novel_title := default "" title;
                                  novel_author := default "" author;
                                  novel_category := category.1;
                                  novel_intro := intro;
                                  novel_uploader := user_id request_user;
                                  novel_is_approved := false |}
                               (novels d);
                      chapters := chapters d;
                      categories := categories d;
                      comments := comments d |};;
          mret {| response := redirect_to (chapter_list_url novel_id);
                  flashed := [(SUCCESS, NovelCreated)] |}
    | GET_method =>
        d ← read_db;
        mret (answer (add_novel_html None (categories d)))
    end) request.

(** Deleting a novel. *)
Definition delete_novel (request : HttpRequest) (novel_id : Z) : M reply :=
  login_required_reply (fun request_user =>
    novel ← get_object_or_404 novels novel_id;
    if bool_decide (novel_uploader novel.2 ≠ user_id request_user)
       && negb (is_superuser request_user)
    then mret (answer (forbidden CannotDeleteNovel))
    else
      d ← read_db;
      write_db (delete_novel_rows novel.1 d);;
      mret {| response := redirect_to novel_list_url;
              flashed := [(SUCCESS, NovelDeleted)] |}) request.

(** Deleting a chapter. *)
Definition delete_chapter (request : HttpRequest) (chapter_id : Z) : M reply :=
  login_required_reply (fun request_user =>
    chapter ← get_object_or_404 chapters chapter_id;
    let novel_id := chapter_novel chapter.2 in
    if bool_decide (chapter_uploader chapter.2 ≠ user_id request_user)
       && negb (is_superuser request_user)
    then mret (answer (forbidden CannotDeleteChapter))
    else
      d ← read_db;
      write_db (delete_chapter_rows chapter.1 d);;
      mret {| response := redirect_to (chapter_list_url novel_id);
              flashed := [(SUCCESS, ChapterDeleted)] |}) request.

(** Deleting a comment. *)
Definition delete_comment (request : HttpRequest) (comment_id : Z) : M reply :=
  login_required_reply (fun request_user =>
    comment ← get_object_or_404 comments comment_id;
    if bool_decide (comment_user comment.2 ≠ user_id request_user)
       && negb (is_superuser request_user)
    then mret (answer (forbidden CannotDeleteComment))
    else
      let chapter_id := comment_chapter comment.2 in
      d ← read_db;
      write_db (delete_comment_row comment.1 d);;
      mret {| response := redirect_to (chapter_detail_url chapter_id);
              flashed := [(SUCCESS, CommentDeleted)] |}) request.

(** ** Invariants of the store *)

(** No two chapters of one novel share a [sort_num]. *)
Definition unique_sort_nums (d : database) : Prop :=
  forall pk1 c1 pk2 c2,
    chapters d !! pk1 = Some c1 -> chapters d !! pk2 = Some c2 ->
    chapter_novel c1 = chapter_novel c2 -> sort_num c1 = sort_num c2 ->
    pk1 = pk2.

(** Every stored comment is what [add_comment] lets through: stripped,
    not empty and of at most 500 characters. *)
Definition comments_within_bounds (d : database) : Prop :=
  forall pk cm,
    comments d !! pk = Some cm ->
    comment_content cm <> "" /\
    (String.length (comment_content cm) <= 500)%nat /\
    Text.strip (comment_content cm) = comment_content cm.

(** Every foreign key points to a row: a chapter to its novel, a comment
    to its chapter, a novel to its category. *)
Definition no_orphans (d : database) : Prop :=
  (forall pk c, chapters d !! pk = Some c -> is_Some (novels d !! chapter_novel c)) /\
  (forall pk cm, comments d !! pk = Some cm ->
                 is_Some (chapters d !! comment_chapter cm)) /\
  (forall pk n, novels d !! pk = Some n -> is_Some (categories d !! novel_category n)).

(** The page a response renders, if it renders one. *)
Definition page_shown (r : exn + HttpResponse) : option page :=
  match r with
  | inr (render p) => Some p
  | _ => None
  end.

(** The chapters a chapter-list response lists. *)
Definition chapters_listed (r : exn + HttpResponse) : option (gmap Z Chapter) :=
  match r with
  | inr (render (chapter_list_html _ chapters)) => Some chapters
  | _ => None
  end.

(** The comments and the paragraphs a chapter page shows. *)
Definition comments_shown (r : exn + HttpResponse) : option (gmap Z Comment) :=
  match r with
  | inr (render (chapter_detail_html _ _ comments _ _ _)) => Some comments
  | _ => None
  end.


(** ** A second sample store

    The sample store with a chapter of several lines and three comments:
    an approved and a pending one on chapter 10, an approved one on
    chapter 12. *)

Module Shelf.

Definition newline : string := String "010"%char EmptyString.

Definition opening : Chapter :=
  {| chapter_novel := 1; chapter_title := "Book"; sort_num := 1;
     chapter_content := "  First line  " ++ newline ++ newline
                        ++ "Second line" ++ newline;
     chapter_uploader := 7; chapter_is_approved := true |}.

Definition nice : Comment :=
  {| comment_chapter := 10; comment_user := 9; comment_content := "Nice";
     comment_is_approved := true |}.

Definition held_back : Comment :=
  {| comment_chapter := 10; comment_user := 7; comment_content := "Wait";
     comment_is_approved := false |}.

Definition elsewhere : Comment :=
  {| comment_chapter := 12; comment_user := 9; comment_content := "More";
     comment_is_approved := true |}.

Definition store : database :=
  {| novels := novels Sample.store;
     chapters := <[10 := opening]> (chapters Sample.store);
     categories := categories Sample.store;
     comments := {[ 100 := nice; 101 := held_back; 102 := elsewhere ]} |}.

Definition start : state := {| db := store; queue := [] |}.

(** A form for a chapter and a form for a novel. *)
Definition chapter_fields (number : string) : gmap string string :=
  {[ "title" := "Book four"; "sort_num" := number; "content" := "Later" ]}.

Definition novel_fields (category : string) : gmap string string :=
  {[ "title" := "Persuasion"; "author" := "Austen"; "category" := category;
     "intro" := "Bath" ]}.

End Shelf.

(** * Properties *)

(** ** Text *)

Example int_plain : Text.int "12" = Some 12.
Proof. reflexivity. Qed.

Example int_spaces_sign : Text.int "  -7 " = Some (-7).
Proof. reflexivity. Qed.

Example int_underscore : Text.int "1_000" = Some 1000.
Proof. reflexivity. Qed.

Example int_bad : Text.int "1__0" = None /\ Text.int "12a" = None /\ Text.int " " = None.
Proof. repeat split; reflexivity. Qed.

Example int_leading_zeros : Text.int "007" = Some 7 /\ Text.int "-0" = Some 0.
Proof. split; reflexivity. Qed.

Example int_sign_alone :
  Text.int "+ 1" = None /\ Text.int "--1" = None /\ Text.int "-" = None
  /\ Text.int "" = None /\ Text.int "_1" = None /\ Text.int "1_" = None.
Proof. repeat split; reflexivity. Qed.

Example isdigit_plain :
  Text.isdigit "42" = true /\ Text.isdigit "" = false /\ Text.isdigit "4 2" = false
  /\ Text.isdigit "-1" = false.
Proof. repeat split; reflexivity. Qed.

Example split_lines :
  Text.split "010"%char "a
b
" = ["a"; "b"; ""] /\ Text.split "010"%char "" = [""].
Proof. split; reflexivity. Qed.

Example strip_both : Text.strip "  a b  " = "a b".
Proof. reflexivity. Qed.

Example icontains_case : Text.icontains "The Hobbit" "hOBB" = true.
Proof. reflexivity. Qed.

(** ** Running the monad *)

Lemma bind_run {A B} (m : M A) (f : A -> M B) s :
  (m ≫= f) s = match m s with
               | (inr a, s') => f a s'
               | (inl e, s') => (inl e, s')
               end.
Proof. reflexivity. Qed.

Lemma get_object_or_404_found {A} (table : database -> gmap Z A) pk row s :
  table (db s) !! pk = Some row ->
  get_object_or_404 table pk s = (inr (pk, row), s).
Proof.
  intros Hrow. unfold get_object_or_404. rewrite bind_run. simpl.
  rewrite Hrow. reflexivity.
Qed.

Lemma get_object_or_404_missing {A} (table : database -> gmap Z A) pk s :
  table (db s) !! pk = None ->
  get_object_or_404 table pk s = (inl Http404, s).
Proof.
  intros Hrow. unfold get_object_or_404. rewrite bind_run. simpl.
  rewrite Hrow. reflexivity.
Qed.

Lemma login_required_anonymous view request s :
  user request = None ->
  login_required view request s = (inr (redirect login_url), s).
Proof. intros H. unfold login_required. rewrite H. reflexivity. Qed.

Lemma login_required_user view request u :
  user request = Some u -> login_required view request = view u.
Proof. intros H. unfold login_required. rewrite H. reflexivity. Qed.

(** Two steps that open most proofs about a view: the decorator lets a
    signed-in request through, and the lookup finds the row. *)
Ltac signed_in Hu := rewrite (login_required_user _ _ _ Hu).

Ltac fetch table Hrow :=
  rewrite bind_run, (get_object_or_404_found table _ _ _ Hrow).

Lemma state_eta s : {| db := db s; queue := queue s |} = s.
Proof. destruct s; reflexivity. Qed.

Lemma database_eta d :
  {| novels := novels d; chapters := chapters d;
     categories := categories d; comments := comments d |} = d.
Proof. destruct d; reflexivity. Qed.

(** C10: in both approval views the superuser check comes before the
    lookup: a signed-in caller who is no superuser is answered Forbidden
    for every key, whether it resolves or not, with the state untouched;
    the answer is never not-found and is the same for any two keys. *)
Theorem approve_forbidden_before_lookup request u pk s :
  user request = Some u -> is_superuser u = false ->
  approve_novel request pk s = (inr (HttpResponseForbidden OnlyAdminApprovesNovel), s) /\
  approve_chapter request pk s = (inr (HttpResponseForbidden OnlyAdminApprovesChapter), s) /\
  outcome (approve_novel request pk s) <> inl Http404 /\
  outcome (approve_chapter request pk s) <> inl Http404 /\
  (forall pk', approve_novel request pk' s = approve_novel request pk s) /\
  (forall pk', approve_chapter request pk' s = approve_chapter request pk s).
Proof.
  intros Hu Hsu.
  assert (forall k, approve_novel request k s
                    = (inr (HttpResponseForbidden OnlyAdminApprovesNovel), s)) as Hnovel.
  { intros k. unfold approve_novel.
    rewrite (login_required_user _ _ _ Hu), Hsu. reflexivity. }
  assert (forall k, approve_chapter request k s
                    = (inr (HttpResponseForbidden OnlyAdminApprovesChapter), s)) as Hchapter.
  { intros k. unfold approve_chapter.
    rewrite (login_required_user _ _ _ Hu), Hsu. reflexivity. }
  split; [apply Hnovel|]. split; [apply Hchapter|].
  rewrite Hnovel, Hchapter. unfold outcome; simpl.
  split; [discriminate|]. split; [discriminate|].
  split; intros pk'; [apply Hnovel|apply Hchapter].
Qed.

(** ** Moderation *)

Lemma approve_novel_superuser request u pk n s :
  user request = Some u -> is_superuser u = true ->
  novels (db s) !! pk = Some n ->
  approve_novel request pk s =
    (inr (redirect novel_list_url),
     {| db := {| novels := <[pk := {| novel_title := novel_title n;
                                      novel_author := novel_author n;
                                      novel_category := novel_category n;
                                      novel_intro := novel_intro n;
                                      novel_uploader := novel_uploader n;
                                      novel_is_approved := true |}]> (novels (db s));
                 chapters := chapters (db s);
                 categories := categories (db s);
                 comments := comments (db s) |};
        queue := queue s ++ [(SUCCESS, NovelApproved)] |}).
Proof.
  intros Hu Hsu Hn. unfold approve_novel.
  rewrite (login_required_user _ _ _ Hu), Hsu. simpl.
  fetch novels Hn.
  reflexivity.
Qed.

Lemma approve_chapter_superuser request u pk c s :
  user request = Some u -> is_superuser u = true ->
  chapters (db s) !! pk = Some c ->
  approve_chapter request pk s =
    (inr (redirect (chapter_list_url (chapter_novel c))),
     {| db := {| novels := novels (db s);
                 chapters := <[pk := {| chapter_novel := chapter_novel c;
                                        chapter_title := chapter_title c;
                                        sort_num := sort_num c;
                                        chapter_content := chapter_content c;
                                        chapter_uploader := chapter_uploader c;
                                        chapter_is_approved := true |}]> (chapters (db s));
                 categories := categories (db s);
                 comments := comments (db s) |};
        queue := queue s ++ [(SUCCESS, ChapterApproved)] |}).
Proof.
  intros Hu Hsu Hc. unfold approve_chapter.
  rewrite (login_required_user _ _ _ Hu), Hsu. simpl.
  fetch chapters Hc.
  reflexivity.
Qed.

Lemma approve_novel_success_superuser request pk s :
  outcome (approve_novel request pk s) = inr (redirect novel_list_url) ->
  exists u, user request = Some u /\ is_superuser u = true.
Proof.
  unfold approve_novel, login_required.
  destruct (user request) as [u|]; [|discriminate].
  destruct (is_superuser u) eqn:Hsu; [eauto|discriminate].
Qed.

Lemma approve_chapter_success_superuser request pk s novel_id :
  outcome (approve_chapter request pk s) = inr (redirect (chapter_list_url novel_id)) ->
  exists u, user request = Some u /\ is_superuser u = true.
Proof.
  unfold approve_chapter, login_required.
  destruct (user request) as [u|]; [|discriminate].
  destruct (is_superuser u) eqn:Hsu; [eauto|discriminate].
Qed.

(** C5 (amended): approval succeeds only for a superuser; an authenticated
    caller who is not a superuser gets Forbidden and an anonymous caller is
    sent to the login page, the store untouched in both cases; a superuser
    approving an existing novel or chapter leaves it approved, and when it
    was approved already the store does not change. *)
Theorem approval_authorization request pk s :
  (outcome (approve_novel request pk s) = inr (redirect novel_list_url) ->
   exists u, user request = Some u /\ is_superuser u = true) /\
  (forall novel_id,
     outcome (approve_chapter request pk s) = inr (redirect (chapter_list_url novel_id)) ->
     exists u, user request = Some u /\ is_superuser u = true) /\
  (forall u, user request = Some u -> is_superuser u = false ->
     approve_novel request pk s
       = (inr (HttpResponseForbidden OnlyAdminApprovesNovel), s) /\
     approve_chapter request pk s
       = (inr (HttpResponseForbidden OnlyAdminApprovesChapter), s)) /\
  (user request = None ->
     approve_novel request pk s = (inr (redirect login_url), s) /\
     approve_chapter request pk s = (inr (redirect login_url), s)) /\
  (forall u n, user request = Some u -> is_superuser u = true ->
     novels (db s) !! pk = Some n ->
     outcome (approve_novel request pk s) = inr (redirect novel_list_url) /\
     novel_is_approved <$> novels (db (final (approve_novel request pk s))) !! pk
       = Some true /\
     (novel_is_approved n = true ->
      db (final (approve_novel request pk s)) = db s)) /\
  (forall u c, user request = Some u -> is_superuser u = true ->
     chapters (db s) !! pk = Some c ->
     outcome (approve_chapter request pk s)
       = inr (redirect (chapter_list_url (chapter_novel c))) /\
     chapter_is_approved <$> chapters (db (final (approve_chapter request pk s))) !! pk
       = Some true /\
     (chapter_is_approved c = true ->
      db (final (approve_chapter request pk s)) = db s)).
Proof.
  split; [apply approve_novel_success_superuser|].
  split; [intros novel_id; apply approve_chapter_success_superuser|].
  split.
  { intros u Hu Hsu. unfold approve_novel, approve_chapter.
    rewrite !(login_required_user _ _ _ Hu), Hsu. split; reflexivity. }
  split.
  { intros Hu. unfold approve_novel, approve_chapter.
    split; apply login_required_anonymous; exact Hu. }
  split.
  - intros u n Hu Hsu Hn.
    rewrite (approve_novel_superuser request u pk n s Hu Hsu Hn).
    unfold outcome, final; simpl.
    split; [reflexivity|]. split.
    + rewrite lookup_insert_eq. reflexivity.
    + intros Hok. destruct n; simpl in *; subst.
      rewrite insert_id by exact Hn. apply database_eta.
  - intros u c Hu Hsu Hc.
    rewrite (approve_chapter_superuser request u pk c s Hu Hsu Hc).
    unfold outcome, final; simpl.
    split; [reflexivity|]. split.
    + rewrite lookup_insert_eq. reflexivity.
    + intros Hok. destruct c; simpl in *; subst.
      rewrite insert_id by exact Hc. apply database_eta.
Qed.

(** ** Query sets *)

Lemma chapters_of_lookup novel_id d pk c :
  chapters_of novel_id d !! pk = Some c <->
  chapters d !! pk = Some c /\ chapter_novel c = novel_id.
Proof. unfold chapters_of. rewrite map_lookup_filter_Some. reflexivity. Qed.

Lemma approved_chapters_lookup qs pk c :
  approved_chapters qs !! pk = Some c <->
  qs !! pk = Some c /\ chapter_is_approved c = true.
Proof. unfold approved_chapters. rewrite map_lookup_filter_Some. reflexivity. Qed.

Lemma exists_spec {A} (qs : gmap Z A) :
  exists_ qs = true <-> exists pk row, qs !! pk = Some row.
Proof.
  unfold exists_. destruct (map_to_list qs) as [|[pk row] rest] eqn:Hrows.
  - apply map_to_list_empty_iff in Hrows. subst qs. split; [discriminate|].
    intros (pk & row & Hrow). rewrite lookup_empty in Hrow. discriminate.
  - split; [intros _|reflexivity]. exists pk, row.
    apply elem_of_map_to_list. rewrite Hrows. left.
Qed.

Lemma foldr_max_upper (d : Z) (xs : list Z) x :
  x ∈ xs -> x <= foldr Z.max d xs.
Proof.
  induction xs as [|y ys IH]; intros Hin.
  - inversion Hin.
  - apply elem_of_cons in Hin as [->|Hin]; simpl; [lia|].
    specialize (IH Hin). lia.
Qed.

Lemma foldr_max_elem (d : Z) (xs : list Z) :
  foldr Z.max d xs = d \/ foldr Z.max d xs ∈ xs.
Proof.
  induction xs as [|y ys IH]; simpl; [left; reflexivity|].
  destruct (Z.max_spec y (foldr Z.max d ys)) as [[_ ->]|[_ ->]].
  - destruct IH as [->|IH]; [left; reflexivity|right; right; exact IH].
  - right; left.
Qed.

Lemma foldr_max_base (d : Z) (xs : list Z) : d <= foldr Z.max d xs.
Proof. induction xs as [|y ys IH]; simpl; lia. Qed.

Lemma max_list_spec d x xs :
  max_list d (x :: xs) ∈ x :: xs /\
  forall y, y ∈ x :: xs -> y <= max_list d (x :: xs).
Proof.
  simpl. split.
  - destruct (foldr_max_elem x xs) as [->|Hin]; [left|right; exact Hin].
  - intros y Hy. apply elem_of_cons in Hy as [->|Hy].
    + apply foldr_max_base.
    + apply foldr_max_upper, Hy.
Qed.

Lemma next_pk_fresh {A} (table : gmap Z A) : table !! next_pk table = None.
Proof.
  destruct (table !! next_pk table) as [row|] eqn:Hrow; [|reflexivity].
  exfalso. apply elem_of_map_to_list in Hrow.
  assert (next_pk table ∈ (map_to_list table).*1) as Hin.
  { apply list_elem_of_fmap. exists (next_pk table, row). split; [reflexivity|exact Hrow]. }
  apply (foldr_max_upper 0) in Hin. unfold next_pk in Hin at 1. lia.
Qed.

Lemma create_lookup_new {A} (row : A) (table : gmap Z A) :
  create row table !! next_pk table = Some row.
Proof. apply lookup_insert_eq. Qed.

Lemma create_lookup_old {A} (row : A) (table : gmap Z A) pk old :
  table !! pk = Some old -> create row table !! pk = Some old.
Proof.
  intros Hold. unfold create. rewrite lookup_insert_ne; [exact Hold|].
  intros <-. rewrite next_pk_fresh in Hold. discriminate.
Qed.

Lemma values_list_sort_num_elem qs x :
  x ∈ values_list_sort_num qs <-> exists pk c, qs !! pk = Some c /\ sort_num c = x.
Proof.
  unfold values_list_sort_num. rewrite list_elem_of_fmap. split.
  - intros (c & -> & Hc). apply list_elem_of_fmap in Hc as ([pk c'] & -> & Hc).
    exists pk, c'. split; [apply elem_of_map_to_list, Hc|reflexivity].
  - intros (pk & c & Hc & <-). exists c. split; [reflexivity|].
    apply list_elem_of_fmap. exists (pk, c). split; [reflexivity|].
    apply elem_of_map_to_list, Hc.
Qed.

(** ** The chapter list *)

(** The test [novel.uploader != request.user and not request.user.is_superuser]. *)
Lemma not_manages_test u n :
  bool_decide (novel_uploader n ≠ user_id u) && negb (is_superuser u)
  = bool_decide (~ manages u n).
Proof.
  destruct (bool_decide (~ manages u n)) eqn:Hm.
  - apply bool_decide_eq_true in Hm. unfold manages in Hm.
    apply andb_true_iff. split.
    + apply bool_decide_eq_true. tauto.
    + destruct (is_superuser u); [tauto|reflexivity].
  - apply bool_decide_eq_false in Hm. apply andb_false_iff.
    destruct (is_superuser u) eqn:Hsu; [right; reflexivity|left].
    apply bool_decide_eq_false. intros Hne. apply Hm.
    unfold manages. rewrite Hsu. intros [?|?]; [tauto|discriminate].
Qed.

(** C4 (amended): the chapter list asks for a login; a signed-in viewer
    gets the chapters of the novel that are approved, and the pending ones
    too when they are the novel's uploader or a superuser. *)
Theorem chapter_list_visibility request novel_id n s :
  novels (db s) !! novel_id = Some n ->
  (user request = None ->
   chapter_list request novel_id s = (inr (redirect login_url), s)) /\
  (forall u, user request = Some u ->
   exists listed,
     chapter_list request novel_id s
       = (inr (render (chapter_list_html (novel_id, n) listed)), s) /\
     (forall pk c, listed !! pk = Some c <->
        chapters (db s) !! pk = Some c /\ chapter_novel c = novel_id /\
        listed_for (Some u) n c) /\
     (~ manages u n -> listed = approved_chapters (chapters_of novel_id (db s))) /\
     (manages u n -> listed = chapters_of novel_id (db s))).
Proof.
  intros Hn. split.
  { intros Hu. unfold chapter_list. apply login_required_anonymous, Hu. }
  intros u Hu. unfold chapter_list.
  signed_in Hu. fetch novels Hn.
  rewrite bind_run. simpl. rewrite not_manages_test.
  eexists. split; [reflexivity|].
  unfold listed_for. case_bool_decide as Hm.
  - split; [|split; [reflexivity|tauto]].
    intros pk c. rewrite approved_chapters_lookup, chapters_of_lookup. tauto.
  - assert (manages u n) as Hman by (destruct (decide (manages u n)); tauto).
    split; [|split; [tauto|reflexivity]].
    intros pk c. rewrite chapters_of_lookup. tauto.
Qed.

(** ** Chapter ordering *)

Lemma next_sort_num_of_spec d novel_id :
  let next := next_sort_num_of (values_list_sort_num (chapters_of novel_id d)) in
  ((forall pk c, chapters d !! pk = Some c -> chapter_novel c <> novel_id) ->
   next = 1) /\
  ((exists pk c, chapters d !! pk = Some c /\ chapter_novel c = novel_id) ->
   exists m, is_max_sort_num d novel_id m /\ next = m + 1).
Proof.
  simpl. destruct (values_list_sort_num (chapters_of novel_id d)) as [|x xs] eqn:Hvals.
  - split; [reflexivity|]. intros (pk & c & Hc & Hnov). exfalso.
    assert (sort_num c ∈ values_list_sort_num (chapters_of novel_id d)) as Hin.
    { apply values_list_sort_num_elem. exists pk, c.
      rewrite chapters_of_lookup. auto. }
    rewrite Hvals in Hin. inversion Hin.
  - destruct (max_list_spec 0 x xs) as [Hin Hupper]. rewrite <- Hvals in Hin, Hupper.
    apply values_list_sort_num_elem in Hin as (pk & c & Hc & Hmax).
    apply chapters_of_lookup in Hc as [Hc Hnov]. split.
    + intros Hnone. exfalso. exact (Hnone pk c Hc Hnov).
    + intros _. exists (max_list 0 (x :: xs)). split; [|reflexivity]. split.
      * exists pk, c. rewrite <- Hvals. auto.
      * intros pk' c' Hc' Hnov'. rewrite <- Hvals. apply Hupper.
        apply values_list_sort_num_elem. exists pk', c'.
        rewrite chapters_of_lookup. auto.
Qed.

Lemma is_max_sort_num_unique d novel_id m m' :
  is_max_sort_num d novel_id m -> is_max_sort_num d novel_id m' -> m = m'.
Proof.
  intros [(pk & c & Hc & Hnov & <-) Hle] [(pk' & c' & Hc' & Hnov' & <-) Hle'].
  specialize (Hle pk' c' Hc' Hnov'). specialize (Hle' pk c Hc Hnov). lia.
Qed.

Lemma is_uploader_test u n :
  novel_uploader n = user_id u ->
  bool_decide (novel_uploader n ≠ user_id u) = false.
Proof. intros Hup. apply bool_decide_eq_false. tauto. Qed.

(** C7: the sort number offered on the form for adding a chapter is one
    more than the largest [sort_num] of the novel's chapters, and 1 when
    the novel has none. *)
Theorem next_sort_num_advisory request u novel_id n s :
  user request = Some u -> method request = GET_method ->
  novels (db s) !! novel_id = Some n -> novel_uploader n = user_id u ->
  exists existing next,
    add_chapter request novel_id s
      = (inr (render (add_chapter_html (novel_id, n) None existing next)), s) /\
    ((forall pk c, chapters (db s) !! pk = Some c -> chapter_novel c <> novel_id) ->
     next = 1) /\
    ((exists pk c, chapters (db s) !! pk = Some c /\ chapter_novel c = novel_id) ->
     exists m, is_max_sort_num (db s) novel_id m /\ next = m + 1) /\
    (forall m, is_max_sort_num (db s) novel_id m -> next = m + 1).
Proof.
  intros Hu Hget Hn Hup. unfold add_chapter.
  signed_in Hu. fetch novels Hn.
  simpl. rewrite (is_uploader_test u n Hup).
  rewrite bind_run. simpl. rewrite Hget.
  eexists _, _. split; [reflexivity|].
  destruct (next_sort_num_of_spec (db s) novel_id) as [Hnone Hsome].
  split; [exact Hnone|]. split; [exact Hsome|].
  intros m Hm. destruct Hsome as (m' & Hm' & ->).
  - destruct Hm as [(pk & c & Hc & Hnov & _) _]. eauto.
  - f_equal. eapply is_max_sort_num_unique; eassumption.
Qed.

Lemma truth_Some t : t <> "" -> truth (Some t) = true.
Proof. destruct t; [congruence|reflexivity]. Qed.

Lemma duplicate_on_add d novel_id k :
  exists_ (filter (fun kv : Z * Chapter => sort_num kv.2 = k) (chapters_of novel_id d)) = true
  <-> duplicate_ordering d novel_id k None.
Proof.
  rewrite exists_spec. unfold duplicate_ordering. split.
  - intros (pk & c & Hc). apply map_lookup_filter_Some in Hc as [Hc Hk].
    apply chapters_of_lookup in Hc as [Hc Hnov]. exists pk, c. auto.
  - intros (pk & c & Hc & Hnov & Hk & _). exists pk, c.
    apply map_lookup_filter_Some. rewrite chapters_of_lookup. auto.
Qed.

Lemma duplicate_on_edit d novel_id k chapter_id :
  exists_ (filter (fun kv : Z * Chapter => kv.1 ≠ chapter_id)
             (filter (fun kv : Z * Chapter => sort_num kv.2 = k)
                (chapters_of novel_id d))) = true
  <-> duplicate_ordering d novel_id k (Some chapter_id).
Proof.
  rewrite exists_spec. unfold duplicate_ordering. split.
  - intros (pk & c & Hc). apply map_lookup_filter_Some in Hc as [Hc Hpk].
    apply map_lookup_filter_Some in Hc as [Hc Hk].
    apply chapters_of_lookup in Hc as [Hc Hnov]. exists pk, c.
    simpl in *. repeat split; auto. congruence.
  - intros (pk & c & Hc & Hnov & Hk & Hpk). exists pk, c.
    rewrite !map_lookup_filter_Some, chapters_of_lookup. simpl.
    repeat split; auto. congruence.
Qed.

Lemma add_chapter_post request u novel_id n s title candidate content :
  user request = Some u ->
  novels (db s) !! novel_id = Some n -> novel_uploader n = user_id u ->
  chapter_form request title candidate content ->
  let existing := values_list_sort_num (chapters_of novel_id (db s)) in
  let form error := render (add_chapter_html (novel_id, n) (Some error) existing
                              (next_sort_num_of existing)) in
  add_chapter request novel_id s =
    match Text.int candidate with
    | None => (inr (form SortNumNotInteger), s)
    | Some k =>
        if exists_ (filter (fun kv : Z * Chapter => sort_num kv.2 = k)
                      (chapters_of novel_id (db s)))
        then (inr (form (SortNumExistsAmong k (merge_sort Z.le existing))), s)
        else (inr (redirect (chapter_list_url novel_id)),
              {| db := {| novels := novels (db s);
                          chapters :=
                            create {| chapter_novel := novel_id;
                                      chapter_title := title;
                                      sort_num := k;
                                      chapter_content := content;
                                      chapter_uploader := user_id u;
                                      chapter_is_approved := false |}
                                   (chapters (db s));
                          categories := categories (db s);
                          comments := comments (db s) |};
                 queue := queue s |})
    end.
Proof.
  intros Hu Hn Hup (Hpost & Ht & Htne & Hc & Hcne & Hb & Hbne). simpl.
  unfold add_chapter.
  signed_in Hu. fetch novels Hn.
  simpl. rewrite (is_uploader_test u n Hup).
  rewrite bind_run. simpl. rewrite Hpost, Ht, Hc, Hb.
  rewrite !truth_Some by assumption. simpl.
  destruct (Text.int candidate) as [k|]; [|reflexivity].
  destruct (exists_ _); reflexivity.
Qed.

Lemma edit_chapter_post request u chapter_id c s title candidate content :
  user request = Some u ->
  chapters (db s) !! chapter_id = Some c ->
  chapter_uploader c = user_id u \/ is_superuser u = true ->
  chapter_form request title candidate content ->
  let form error := render (edit_chapter_html (chapter_id, c) (Some error)) in
  edit_chapter request chapter_id s =
    match Text.int candidate with
    | None => (inr (form SortNumNotInteger), s)
    | Some k =>
        if exists_ (filter (fun kv : Z * Chapter => kv.1 ≠ chapter_id)
                      (filter (fun kv : Z * Chapter => sort_num kv.2 = k)
                         (chapters_of (chapter_novel c) (db s))))
        then (inr (form (SortNumExists k)), s)
        else (inr (redirect (chapter_detail_url chapter_id)),
              {| db := {| novels := novels (db s);
                          chapters :=
                            <[chapter_id := {| chapter_novel := chapter_novel c;
                                               chapter_title := title;
                                               sort_num := k;
                                               chapter_content := content;
                                               chapter_uploader := chapter_uploader c;
                                               chapter_is_approved := false |}]>
                              (chapters (db s));
                          categories := categories (db s);
                          comments := comments (db s) |};
                 queue := queue s ++ [(SUCCESS, ChapterEdited)] |})
    end.
Proof.
  intros Hu Hch Hmay (Hpost & Ht & Htne & Hc & Hcne & Hb & Hbne). simpl.
  unfold edit_chapter.
  signed_in Hu. fetch chapters Hch.
  simpl.
  assert (bool_decide (chapter_uploader c ≠ user_id u) && negb (is_superuser u) = false)
    as ->.
  { apply andb_false_iff. destruct Hmay as [Hup| ->]; [left|right; reflexivity].
    apply bool_decide_eq_false. tauto. }
  rewrite Hpost, Ht, Hc, Hb. rewrite !truth_Some by assumption. simpl.
  destruct (Text.int candidate) as [k|]; [|reflexivity].
  rewrite bind_run. simpl. destruct (exists_ _); reflexivity.
Qed.

(** C8: once the form's fields are there, a candidate that is no integer
    is refused as such, a candidate that parses is refused as a duplicate
    exactly when another chapter of the novel (the edited one apart)
    carries that number, and a refusal leaves the state as it was. *)
Theorem sort_num_validation request u s title candidate content :
  user request = Some u ->
  chapter_form request title candidate content ->
  (forall novel_id n,
     novels (db s) !! novel_id = Some n -> novel_uploader n = user_id u ->
     let existing := values_list_sort_num (chapters_of novel_id (db s)) in
     let form error := render (add_chapter_html (novel_id, n) (Some error) existing
                                 (next_sort_num_of existing)) in
     (Text.int candidate = None ->
      add_chapter request novel_id s = (inr (form SortNumNotInteger), s)) /\
     (forall k, Text.int candidate = Some k ->
        (duplicate_ordering (db s) novel_id k None <->
         outcome (add_chapter request novel_id s)
           = inr (form (SortNumExistsAmong k (merge_sort Z.le existing)))) /\
        (duplicate_ordering (db s) novel_id k None ->
         final (add_chapter request novel_id s) = s) /\
        (~ duplicate_ordering (db s) novel_id k None ->
         outcome (add_chapter request novel_id s)
           = inr (redirect (chapter_list_url novel_id))))) /\
  (forall chapter_id c,
     chapters (db s) !! chapter_id = Some c ->
     chapter_uploader c = user_id u \/ is_superuser u = true ->
     let form error := render (edit_chapter_html (chapter_id, c) (Some error)) in
     (Text.int candidate = None ->
      edit_chapter request chapter_id s = (inr (form SortNumNotInteger), s)) /\
     (forall k, Text.int candidate = Some k ->
        (duplicate_ordering (db s) (chapter_novel c) k (Some chapter_id) <->
         outcome (edit_chapter request chapter_id s) = inr (form (SortNumExists k))) /\
        (duplicate_ordering (db s) (chapter_novel c) k (Some chapter_id) ->
         final (edit_chapter request chapter_id s) = s) /\
        (~ duplicate_ordering (db s) (chapter_novel c) k (Some chapter_id) ->
         outcome (edit_chapter request chapter_id s)
           = inr (redirect (chapter_detail_url chapter_id))))).
Proof.
  intros Hu Hform. split.
  - intros novel_id n Hn Hup. simpl.
    rewrite (add_chapter_post request u novel_id n s title candidate content
               Hu Hn Hup Hform).
    split; [intros ->; reflexivity|]. intros k ->.
    rewrite <- duplicate_on_add.
    destruct (exists_ _); unfold outcome, final; simpl;
      repeat split; try congruence; try discriminate; auto.
  - intros chapter_id c Hc Hmay. simpl.
    rewrite (edit_chapter_post request u chapter_id c s title candidate content
               Hu Hc Hmay Hform).
    split; [intros ->; reflexivity|]. intros k ->.
    rewrite <- duplicate_on_edit.
    destruct (exists_ _); unfold outcome, final; simpl;
      repeat split; try congruence; try discriminate; auto.
Qed.

(** ** Editing and the approval flag *)

Lemma edit_novel_post request u novel_id n s title author category pk cat :
  user request = Some u ->
  novels (db s) !! novel_id = Some n -> manages u n ->
  novel_form request title author category ->
  Text.int category = Some pk -> categories (db s) !! pk = Some cat ->
  edit_novel request novel_id s =
    (inr (redirect (chapter_list_url novel_id)),
     {| db := {| novels :=
                   <[novel_id := {| novel_title := title;
                                    novel_author := author;
                                    novel_category := pk;
                                    novel_intro := get_or (POST request) "intro" "";
                                    novel_uploader := novel_uploader n;
                                    novel_is_approved := novel_is_approved n |}]>
                     (novels (db s));
                 chapters := chapters (db s);
                 categories := categories (db s);
                 comments := comments (db s) |};
        queue := (queue s ++ [(SUCCESS, NovelEdited)])%list |}).
Proof.
  intros Hu Hn Hman (Hpost & Ht & Htne & Ha & Hane & Hc & Hcne) Hint Hcat.
  unfold edit_novel.
  signed_in Hu. fetch novels Hn.
  simpl. rewrite not_manages_test.
  rewrite bool_decide_eq_false_2 by tauto.
  rewrite Hpost, Ht, Ha, Hc. rewrite !truth_Some by assumption. simpl.
  unfold int_or_raise. rewrite Hint, bind_run. simpl.
  fetch categories Hcat.
  reflexivity.
Qed.

(** C2: an edit of a chapter that passes validation leaves the chapter
    pending, whatever its flag was; an edit of a novel that passes
    validation stores the new title, author, category and introduction and
    keeps the novel's flag. *)
Theorem edit_and_approval request u s :
  user request = Some u ->
  (forall chapter_id c title candidate content k,
     chapters (db s) !! chapter_id = Some c ->
     chapter_uploader c = user_id u \/ is_superuser u = true ->
     chapter_form request title candidate content ->
     Text.int candidate = Some k ->
     ~ duplicate_ordering (db s) (chapter_novel c) k (Some chapter_id) ->
     outcome (edit_chapter request chapter_id s)
       = inr (redirect (chapter_detail_url chapter_id)) /\
     chapters (db (final (edit_chapter request chapter_id s))) !! chapter_id
       = Some {| chapter_novel := chapter_novel c;
                 chapter_title := title;
                 sort_num := k;
                 chapter_content := content;
                 chapter_uploader := chapter_uploader c;
                 chapter_is_approved := false |}) /\
  (forall novel_id n title author category pk cat,
     novels (db s) !! novel_id = Some n -> manages u n ->
     novel_form request title author category ->
     Text.int category = Some pk -> categories (db s) !! pk = Some cat ->
     outcome (edit_novel request novel_id s)
       = inr (redirect (chapter_list_url novel_id)) /\
     novels (db (final (edit_novel request novel_id s))) !! novel_id
       = Some {| novel_title := title;
                 novel_author := author;
                 novel_category := pk;
                 novel_intro := get_or (POST request) "intro" "";
                 novel_uploader := novel_uploader n;
                 novel_is_approved := novel_is_approved n |}).
Proof.
  intros Hu. split.
  - intros chapter_id c title candidate content k Hc Hmay Hform Hint Hfree.
    rewrite (edit_chapter_post request u chapter_id c s title candidate content
               Hu Hc Hmay Hform), Hint.
    rewrite <- duplicate_on_edit in Hfree. apply not_true_is_false in Hfree.
    rewrite Hfree. unfold outcome, final; simpl.
    split; [reflexivity|apply lookup_insert_eq].
  - intros novel_id n title author category pk cat Hn Hman Hform Hint Hcat.
    rewrite (edit_novel_post request u novel_id n s title author category pk cat
               Hu Hn Hman Hform Hint Hcat).
    unfold outcome, final; simpl.
    split; [reflexivity|apply lookup_insert_eq].
Qed.

(** ** The comment gate *)

Lemma truthy_false s : Text.truthy s = false <-> s = "".
Proof. destruct s; simpl; split; congruence. Qed.

Lemma add_comment_post request u chapter_id c s :
  user request = Some u -> method request = POST_method ->
  chapters (db s) !! chapter_id = Some c ->
  let content := Text.strip (get_or (POST request) "content" "") in
  add_comment request chapter_id s =
    if negb (Text.truthy content)
    then (comment_redirect chapter_id,
          {| db := db s; queue := queue s ++ [(ERROR, CommentEmpty)] |})
    else if Z.of_nat (String.length content) >? 500
    then (comment_redirect chapter_id,
          {| db := db s; queue := queue s ++ [(ERROR, CommentTooLong)] |})
    else (comment_redirect chapter_id,
          {| db := {| novels := novels (db s);
                      chapters := chapters (db s);
                      categories := categories (db s);
                      comments :=
                        create {| comment_chapter := chapter_id;
                                  comment_user := user_id u;
                                  comment_content := content;
                                  comment_is_approved := comment_is_approved_default |}
                               (comments (db s)) |};
             queue := queue s ++ [(SUCCESS, CommentPosted)] |}).
Proof.
  intros Hu Hpost Hc. simpl. unfold add_comment.
  signed_in Hu. fetch chapters Hc.
  simpl. rewrite Hpost.
  destruct (Text.truthy _); simpl; [|reflexivity].
  destruct (_ >? 500); reflexivity.
Qed.

Lemma comment_fits content :
  content <> "" -> (String.length content <= 500)%nat ->
  negb (Text.truthy content) = false /\
  (Z.of_nat (String.length content) >? 500) = false.
Proof.
  intros Hne Hlen. split.
  - destruct content; [congruence|reflexivity].
  - destruct (Z.gtb_spec (Z.of_nat (String.length content)) 500); [lia|reflexivity].
Qed.

(** C6 (amended): the text of a comment is stripped first; the stripped
    text is refused as empty when nothing is left and as too long when it
    has more than 500 characters, the store untouched; otherwise, so at
    exactly 500 characters, a comment with the stripped text is created
    under a new key for the chapter and the submitting user. *)
Theorem comment_gate request u chapter_id c s :
  user request = Some u -> method request = POST_method ->
  chapters (db s) !! chapter_id = Some c ->
  let content := Text.strip (get_or (POST request) "content" "") in
  let posted :=
    {| comment_chapter := chapter_id; comment_user := user_id u;
       comment_content := content;
       comment_is_approved := comment_is_approved_default |} in
  (content = "" ->
   add_comment request chapter_id s
     = (comment_redirect chapter_id,
        {| db := db s; queue := queue s ++ [(ERROR, CommentEmpty)] |})) /\
  ((String.length content > 500)%nat ->
   add_comment request chapter_id s
     = (comment_redirect chapter_id,
        {| db := db s; queue := queue s ++ [(ERROR, CommentTooLong)] |})) /\
  (content <> "" -> (String.length content <= 500)%nat ->
   add_comment request chapter_id s
     = (comment_redirect chapter_id,
        {| db := {| novels := novels (db s);
                    chapters := chapters (db s);
                    categories := categories (db s);
                    comments := create posted (comments (db s)) |};
           queue := queue s ++ [(SUCCESS, CommentPosted)] |}) /\
   comments (db s) !! next_pk (comments (db s)) = None /\
   create posted (comments (db s)) !! next_pk (comments (db s)) = Some posted) /\
  (String.length content = 500%nat ->
   outcome (add_comment request chapter_id s) = comment_redirect chapter_id /\
   queue (final (add_comment request chapter_id s))
     = (queue s ++ [(SUCCESS, CommentPosted)])%list /\
   comments (db (final (add_comment request chapter_id s)))
     = create posted (comments (db s))).
Proof.
  intros Hu Hpost Hc. simpl.
  rewrite (add_comment_post request u chapter_id c s Hu Hpost Hc). simpl.
  set (content := Text.strip _).
  split; [|split; [|split]].
  - intros ->. reflexivity.
  - intros Hlong. destruct (Text.truthy content) eqn:Ht; simpl.
    + destruct (Z.gtb_spec (Z.of_nat (String.length content)) 500); [reflexivity|lia].
    + apply truthy_false in Ht. rewrite Ht in Hlong. simpl in Hlong. lia.
  - intros Hne Hlen. destruct (comment_fits content Hne Hlen) as [-> ->].
    split; [reflexivity|]. split; [apply next_pk_fresh|apply create_lookup_new].
  - intros Hlen.
    assert (content <> "") as Hne by (intros Hc'; rewrite Hc' in Hlen; discriminate).
    destruct (comment_fits content Hne) as [-> ->]; [lia|].
    unfold outcome, final; simpl. auto.
Qed.

(** ** The chapter page *)

Lemma can_view_flag_spec viewer c :
  can_view_flag viewer c = true <-> can_view viewer c.
Proof.
  unfold can_view_flag, can_view.
  destruct (chapter_is_approved c); [intuition|].
  destruct viewer as [u|].
  - destruct (is_superuser u) eqn:Hsu; simpl.
    + split; [intros _; right; exists u; auto|reflexivity].
    + case_bool_decide as Hup; split; try discriminate; try reflexivity.
      * intros _. right. exists u. auto.
      * intros [?|(u' & [= <-] & [?|?])]; congruence.
  - split; [discriminate|]. intros [?|(u & ? & _)]; discriminate.
Qed.

Lemma Http404_unbound : bool_decide ("Http404" ∈ module_names) = false.
Proof. reflexivity. Qed.

(** A chapter that may not be viewed: the view reaches [raise Http404]
    and the name is not bound. *)
Lemma chapter_detail_hidden request chapter_id c s :
  chapters (db s) !! chapter_id = Some c ->
  ~ can_view (user request) c ->
  chapter_detail request chapter_id s = (inl (NameError "Http404"), s).
Proof.
  intros Hc Hno. rewrite <- can_view_flag_spec in Hno.
  apply not_true_is_false in Hno. unfold chapter_detail.
  fetch chapters Hc.
  simpl. fold (can_view_flag (user request) c). rewrite Hno. reflexivity.
Qed.

(** A chapter that may be viewed is rendered, and the neighbours are the
    nearest below and above among all chapters of the novel: the lookup
    is never narrowed to approved chapters. *)
Lemma chapter_detail_shown request chapter_id c s :
  chapters (db s) !! chapter_id = Some c ->
  can_view (user request) c ->
  exists paragraphs,
    chapter_detail request chapter_id s =
      (inr (render (chapter_detail_html (chapter_id, c) (chapter_novel c)
                      (approved_comments (comments_of chapter_id (db s)))
                      (order_by_first sort_num
                         (filter (fun kv : Z * Chapter =>
                                    sort_num kv.2 > sort_num c /\
                                    matches {| kw_novel := chapter_novel c;
                                               kw_is_approved := None |} kv.2)
                            (chapters (db s))))
                      (order_by_first (fun c' => - sort_num c')
                         (filter (fun kv : Z * Chapter =>
                                    sort_num kv.2 < sort_num c /\
                                    matches {| kw_novel := chapter_novel c;
                                               kw_is_approved := None |} kv.2)
                            (chapters (db s))))
                      paragraphs)), s).
Proof.
  intros Hc Hyes. rewrite <- can_view_flag_spec in Hyes. unfold chapter_detail.
  fetch chapters Hc.
  simpl. fold (can_view_flag (user request) c). rewrite Hyes. simpl.
  rewrite bind_run. simpl. eexists. reflexivity.
Qed.

Lemma chapter_detail_same_for_all request request' chapter_id c s :
  chapters (db s) !! chapter_id = Some c ->
  can_view (user request) c -> can_view (user request') c ->
  chapter_detail request chapter_id s = chapter_detail request' chapter_id s.
Proof.
  intros Hc Hyes Hyes'. rewrite <- can_view_flag_spec in Hyes, Hyes'.
  unfold chapter_detail.
  rewrite !bind_run, (get_object_or_404_found chapters chapter_id c s Hc).
  simpl. fold (can_view_flag (user request) c) (can_view_flag (user request') c).
  rewrite Hyes, Hyes'. reflexivity.
Qed.

(** ** Neighbours as the code finds them *)

Lemma order_by_first_list key (rows : list (Z * Chapter)) :
  match foldr (fun kv best =>
                 match best with
                 | Some b => if key kv.2 <? key b.2 then Some kv else best
                 | None => Some kv
                 end) None rows with
  | Some b => b ∈ rows /\ forall kv, kv ∈ rows -> key b.2 <= key kv.2
  | None => rows = []
  end.
Proof.
  induction rows as [|kv rows IH]; simpl; [reflexivity|].
  destruct (foldr _ None rows) as [b|].
  - destruct IH as [Hin Hleast].
    destruct (Z.ltb_spec (key kv.2) (key b.2)) as [Hlt|Hge].
    + split; [left|]. intros kv' Hkv'.
      apply elem_of_cons in Hkv' as [->|Hkv']; [lia|].
      specialize (Hleast kv' Hkv'). lia.
    + split; [right; exact Hin|]. intros kv' Hkv'.
      apply elem_of_cons in Hkv' as [->|Hkv']; [lia|]. apply Hleast, Hkv'.
  - subst rows. split; [left|]. intros kv' Hkv'.
    apply elem_of_cons in Hkv' as [->|Hkv']; [lia|]. inversion Hkv'.
Qed.

(** [order_by(key).first()] is [None] exactly on the empty query set, and
    otherwise a row of the query set whose key no row undercuts. *)
Lemma order_by_first_spec key qs :
  match order_by_first key qs with
  | Some (pk, c) =>
      qs !! pk = Some c /\ forall pk' c', qs !! pk' = Some c' -> key c <= key c'
  | None => qs = ∅
  end.
Proof.
  unfold order_by_first. pose proof (order_by_first_list key (map_to_list qs)) as H.
  destruct (foldr _ None (map_to_list qs)) as [[pk c]|].
  - destruct H as [Hin Hleast]. split; [apply elem_of_map_to_list, Hin|].
    intros pk' c' Hc'. apply (Hleast (pk', c')), elem_of_map_to_list, Hc'.
  - apply map_to_list_empty_iff, H.
Qed.

(** Among all chapters of the novel, approved or not, the chapter page
    offers as next chapter one of least [sort_num] above the chapter's,
    as previous chapter one of greatest [sort_num] below it, and nothing
    on a side where the novel has no such chapter. *)
Lemma chapter_detail_neighbours request chapter_id c s :
  chapters (db s) !! chapter_id = Some c ->
  can_view (user request) c ->
  let shown := outcome (chapter_detail request chapter_id s) in
  match next_chapter_shown shown with
  | Some (pk, c') =>
      chapters (db s) !! pk = Some c' /\ chapter_novel c' = chapter_novel c /\
      sort_num c < sort_num c' /\
      forall pk'' c'', chapters (db s) !! pk'' = Some c'' ->
        chapter_novel c'' = chapter_novel c -> sort_num c < sort_num c'' ->
        sort_num c' <= sort_num c''
  | None =>
      forall pk'' c'', chapters (db s) !! pk'' = Some c'' ->
        chapter_novel c'' = chapter_novel c -> ~ sort_num c < sort_num c''
  end /\
  match prev_chapter_shown shown with
  | Some (pk, c') =>
      chapters (db s) !! pk = Some c' /\ chapter_novel c' = chapter_novel c /\
      sort_num c' < sort_num c /\
      forall pk'' c'', chapters (db s) !! pk'' = Some c'' ->
        chapter_novel c'' = chapter_novel c -> sort_num c'' < sort_num c ->
        sort_num c'' <= sort_num c'
  | None =>
      forall pk'' c'', chapters (db s) !! pk'' = Some c'' ->
        chapter_novel c'' = chapter_novel c -> ~ sort_num c'' < sort_num c
  end.
Proof.
  intros Hc Hyes.
  destruct (chapter_detail_shown request chapter_id c s Hc Hyes) as (paragraphs & ->).
  unfold outcome; simpl. split.
  - match goal with |- context [order_by_first ?key ?qs] =>
      pose proof (order_by_first_spec key qs) as H;
      destruct (order_by_first key qs) as [[pk c']|]
    end.
    + destruct H as [Hin Hleast].
      apply map_lookup_filter_Some in Hin as (Hin & Hgt & Hnov & _). simpl in *.
      repeat split; [assumption|assumption|lia|].
      intros pk'' c'' Hc'' Hnov'' Hgt''. apply (Hleast pk'' c'').
      apply map_lookup_filter_Some. repeat split; simpl; auto. lia.
    + intros pk'' c'' Hc'' Hnov'' Hgt''.
      assert (filter (fun kv : Z * Chapter =>
                        sort_num kv.2 > sort_num c /\
                        matches {| kw_novel := chapter_novel c;
                                   kw_is_approved := None |} kv.2)
                (chapters (db s)) !! pk'' = Some c'') as Hin.
      { apply map_lookup_filter_Some. repeat split; simpl; auto. lia. }
      rewrite H, lookup_empty in Hin. discriminate.
  - match goal with |- context [order_by_first ?key ?qs] =>
      pose proof (order_by_first_spec key qs) as H;
      destruct (order_by_first key qs) as [[pk c']|]
    end.
    + destruct H as [Hin Hleast].
      apply map_lookup_filter_Some in Hin as (Hin & Hlt & Hnov & _). simpl in *.
      repeat split; [assumption|assumption|lia|].
      intros pk'' c'' Hc'' Hnov'' Hlt''.
      assert (- sort_num c' <= - sort_num c''); [|lia].
      apply (Hleast pk'' c'').
      apply map_lookup_filter_Some. repeat split; simpl; auto.
    + intros pk'' c'' Hc'' Hnov'' Hlt''.
      assert (filter (fun kv : Z * Chapter =>
                        sort_num kv.2 < sort_num c /\
                        matches {| kw_novel := chapter_novel c;
                                   kw_is_approved := None |} kv.2)
                (chapters (db s)) !! pk'' = Some c'') as Hin.
      { apply map_lookup_filter_Some. repeat split; simpl; auto. }
      rewrite H, lookup_empty in Hin. discriminate.
Qed.

(** The chapter page is rendered exactly for the viewers who may see the
    chapter. *)
Lemma chapter_detail_shown_iff request chapter_id c s :
  chapters (db s) !! chapter_id = Some c ->
  (exists page, outcome (chapter_detail request chapter_id s) = inr (render page))
  <-> can_view (user request) c.
Proof.
  intros Hc. split.
  - intros (page & Hpage).
    destruct (decide (can_view_flag (user request) c = true)) as [Hyes|Hno].
    + apply can_view_flag_spec, Hyes.
    + rewrite can_view_flag_spec in Hno.
      rewrite (chapter_detail_hidden request chapter_id c s Hc Hno) in Hpage.
      discriminate.
  - intros Hyes.
    destruct (chapter_detail_shown request chapter_id c s Hc Hyes) as (paragraphs & ->).
    eexists. reflexivity.
Qed.

(** C9: an anonymous viewer asking for the pending chapter 11 of the
    sample store is not answered not-found: the view raises [NameError],
    since [Http404] is not imported; an unknown key does raise the
    not-found of [get_object_or_404]. *)
Theorem chapter_detail_hidden_raises_NameError :
  ~ can_view None (Sample.chapter_of_dune 2 false) /\
  chapter_detail (Sample.get None ∅) 11 Sample.start
    = (inl (NameError "Http404"), Sample.start) /\
  chapter_detail (Sample.get None ∅) 99 Sample.start
    = (inl Http404, Sample.start).
Proof.
  split; [|split].
  - intros [Hok|(u & Hu & _)]; discriminate.
  - apply (chapter_detail_hidden _ 11 (Sample.chapter_of_dune 2 false)).
    + reflexivity.
    + intros [Hok|(u & Hu & _)]; discriminate.
  - vm_compute. reflexivity.
Qed.

(** C3: an anonymous viewer reading the approved chapter 10 of the sample
    store is offered the pending chapter 11 as next chapter, which the
    chapter-list rule hides from them; the nearest chapter they may see
    is chapter 12. *)
Theorem chapter_detail_next_is_pending :
  next_chapter_shown (outcome (chapter_detail (Sample.get None ∅) 10 Sample.start))
    = Some (11, Sample.chapter_of_dune 2 false) /\
  prev_chapter_shown (outcome (chapter_detail (Sample.get None ∅) 12 Sample.start))
    = Some (11, Sample.chapter_of_dune 2 false) /\
  ~ listed_for None Sample.dune (Sample.chapter_of_dune 2 false) /\
  listed_for None Sample.dune (Sample.chapter_of_dune 3 true) /\
  listed_for None Sample.dune (Sample.chapter_of_dune 1 true).
Proof.
  split; [vm_compute; reflexivity|]. split; [vm_compute; reflexivity|].
  split; [|split; left; reflexivity].
  intros [Hok|[]]. discriminate.
Qed.

(** ** The catalogue *)

Lemma isdigit_truthy s : Text.truthy s && Text.isdigit s = Text.isdigit s.
Proof. destruct s; reflexivity. Qed.

(** What the novel list shows when the category, if it passes
    [isdigit], can be read by [int]. *)
Lemma novel_list_selects request s :
  let category_id := get_or (GET request) "category" "" in
  let keyword := get_or (GET request) "keyword" "" in
  Text.isdigit category_id = false \/ is_Some (Text.int category_id) ->
  exists shown,
    novel_list request s
      = (inr (render (novel_list_html shown (categories (db s)) category_id keyword)), s) /\
    forall pk n, shown !! pk = Some n <->
      novels (db s) !! pk = Some n /\ novel_is_approved n = true /\
      (Text.isdigit category_id = false \/
       Text.int category_id = Some (novel_category n)) /\
      (keyword = "" \/ Text.icontains (novel_title n) keyword = true
       \/ Text.icontains (novel_author n) keyword = true).
Proof.
  simpl. intros Hcat. unfold novel_list. rewrite bind_run. simpl.
  rewrite isdigit_truthy.
  set (category_id := get_or (GET request) "category" "") in *.
  set (keyword := get_or (GET request) "keyword" "") in *.
  assert (forall n, Text.icontains (novel_title n) keyword
                    || Text.icontains (novel_author n) keyword = true <->
                    Text.icontains (novel_title n) keyword = true
                    \/ Text.icontains (novel_author n) keyword = true) as Hkw
    by (intros n; apply orb_true_iff).
  destruct (Text.isdigit category_id) eqn:Hdigit.
  - destruct Hcat as [?|[k Hk]]; [discriminate|].
    unfold int_or_raise. rewrite Hk, !bind_run. simpl.
    eexists. split; [reflexivity|]. intros pk n.
    destruct (Text.truthy keyword) eqn:Hk'.
    + rewrite !map_lookup_filter_Some. simpl. rewrite Hkw.
      assert (keyword <> "") by (intros E; rewrite E in Hk'; discriminate).
      split.
      * intros (((Hn & Hok) & <-) & Hmatch). auto 10.
      * intros (Hn & Hok & [?|[= ->]] & [?|Hmatch]); try discriminate; tauto.
    + apply truthy_false in Hk'. rewrite !map_lookup_filter_Some. simpl.
      split.
      * intros ((Hn & Hok) & <-). auto 10.
      * intros (Hn & Hok & [?|[= ->]] & _); try discriminate; tauto.
  - rewrite bind_run. simpl. eexists. split; [reflexivity|]. intros pk n.
    destruct (Text.truthy keyword) eqn:Hk'.
    + rewrite !map_lookup_filter_Some. simpl. rewrite Hkw.
      assert (keyword <> "") by (intros E; rewrite E in Hk'; discriminate).
      split.
      * intros ((Hn & Hok) & Hmatch). auto 10.
      * intros (Hn & Hok & _ & [?|Hmatch]); tauto.
    + apply truthy_false in Hk'. rewrite !map_lookup_filter_Some. simpl.
      split.
      * intros (Hn & Hok). auto 10.
      * intros (Hn & Hok & _); tauto.
Qed.

(** A category that passes [isdigit] and that [int] rejects escapes as
    [ValueError]. *)
Lemma novel_list_raises request s :
  let category_id := get_or (GET request) "category" "" in
  Text.isdigit category_id = true -> Text.int category_id = None ->
  novel_list request s = (inl ValueError, s).
Proof.
  simpl. intros Hdigit Hint. unfold novel_list. rewrite bind_run. simpl.
  rewrite isdigit_truthy, Hdigit. unfold int_or_raise. rewrite Hint.
  reflexivity.
Qed.

(** C1: the category [U+00B2] (superscript two) passes [isdigit] and is no
    integer for [int]: the novel list raises [ValueError] instead of
    treating the category as unset, while the malformed category [x] is
    treated as unset. *)
Theorem novel_list_superscript_category_raises :
  Text.isdigit Sample.superscript_two = true /\
  Text.int Sample.superscript_two = None /\
  novel_list (Sample.get None {[ "category" := Sample.superscript_two ]}) Sample.start
    = (inl ValueError, Sample.start) /\
  novel_list (Sample.get None {[ "category" := "x" ]}) Sample.start
    = (inr (render (novel_list_html {[ 1 := Sample.dune ]}
                      (categories Sample.store) "x" "")), Sample.start).
Proof.
  split; [reflexivity|]. split; [reflexivity|]. split.
  - apply novel_list_raises; reflexivity.
  - vm_compute. reflexivity.
Qed.





(** ** The literal readings refuted *)

(** Against the literal reading of C4: an anonymous request for the chapter list of novel 1 is sent to
    the login page; no list is served. *)
Lemma chapter_list_anonymous_redirected : ~ chapter_list_open_to_all.
Proof.
  intros Hopen.
  destruct (Hopen (Sample.get None ∅) 1 Sample.dune Sample.start)
    as (listed & Hout & _); [reflexivity|].
  vm_compute in Hout. discriminate Hout.
Qed.

(** Against the literal reading of C5: an anonymous caller of [approve_novel] is no superuser and is
    sent to the login page, not answered Forbidden. *)
Lemma approval_anonymous_redirected : ~ approval_forbidden_to_all_others.
Proof.
  intros Hall.
  destruct (Hall (Sample.get None ∅) 2 Sample.start) as (_ & Hforbidden & _).
  destruct Hforbidden as [Hout _]; [intros u; discriminate|].
  vm_compute in Hout. discriminate Hout.
Qed.

(** Against the literal reading of C6: a text of 501 characters whose last character is a space is
    accepted, its first 500 characters stored. *)
Lemma comment_padded_accepted : ~ comment_gate_on_submitted_text.
Proof.
  intros Hgate.
  destruct (Hgate (Sample.post (Some Sample.reader)
                     {[ "content" := Sample.padded_comment ]})
                  Sample.reader 10 (Sample.chapter_of_dune 1 true)
                  Sample.start Sample.padded_comment)
    as (_ & Hlong & _); try reflexivity.
  destruct Hlong as [Hqueue _]; [vm_compute; lia|].
  vm_compute in Hqueue. discriminate Hqueue.
Qed.

(** ** The theorems at work on the sample store *)

Lemma edit_and_approval_witness :
  chapter_is_approved <$>
    chapters (db (final (edit_chapter
                           (Sample.post (Some Sample.author)
                              {[ "title" := "Book three"; "sort_num" := "3";
                                 "content" := "An end" ]})
                           12 Sample.start))) !! 12
    = Some false /\
  novel_is_approved <$>
    novels (db (final (edit_novel
                         (Sample.post (Some Sample.author)
                            {[ "title" := "Dune"; "author" := "Frank Herbert";
                               "category" := "2"; "intro" := "Spice" ]})
                         1 Sample.start))) !! 1
    = Some true.
Proof.
  split.
  - destruct (edit_and_approval
                (Sample.post (Some Sample.author)
                   {[ "title" := "Book three"; "sort_num" := "3";
                      "content" := "An end" ]})
                Sample.author Sample.start eq_refl) as [Hchapter _].
    destruct (Hchapter 12 (Sample.chapter_of_dune 3 true)
                "Book three" "3" "An end" 3) as [_ ->].
    + reflexivity.
    + left. reflexivity.
    + repeat split; (reflexivity || discriminate).
    + reflexivity.
    + rewrite <- duplicate_on_edit. vm_compute. discriminate.
    + reflexivity.
  - destruct (edit_and_approval
                (Sample.post (Some Sample.author)
                   {[ "title" := "Dune"; "author" := "Frank Herbert";
                      "category" := "2"; "intro" := "Spice" ]})
                Sample.author Sample.start eq_refl) as [_ Hnovel].
    destruct (Hnovel 1 Sample.dune "Dune" "Frank Herbert" "2" 2
                {| cat_name := "Classics" |}) as [_ ->].
    + reflexivity.
    + left. reflexivity.
    + repeat split; (reflexivity || discriminate).
    + reflexivity.
    + reflexivity.
    + reflexivity.
Defined.

Lemma chapter_list_visibility_witness :
  chapter_list (Sample.get None ∅) 1 Sample.start
    = (inr (redirect login_url), Sample.start) /\
  chapter_list (Sample.get (Some Sample.reader) ∅) 1 Sample.start
    = (inr (render (chapter_list_html (1, Sample.dune)
                      (approved_chapters (chapters_of 1 Sample.store)))),
       Sample.start) /\
  chapter_list (Sample.get (Some Sample.author) ∅) 1 Sample.start
    = (inr (render (chapter_list_html (1, Sample.dune)
                      (chapters_of 1 Sample.store))),
       Sample.start).
Proof.
  split; [|split].
  - apply (chapter_list_visibility (Sample.get None ∅) 1 Sample.dune Sample.start);
      reflexivity.
  - destruct (chapter_list_visibility (Sample.get (Some Sample.reader) ∅) 1
                Sample.dune Sample.start eq_refl) as [_ Hin].
    destruct (Hin Sample.reader eq_refl) as (listed & Hrun & _ & Hpending & _).
    rewrite Hrun, Hpending; [reflexivity|].
    intros [Hup|Hsu]; discriminate.
  - destruct (chapter_list_visibility (Sample.get (Some Sample.author) ∅) 1
                Sample.dune Sample.start eq_refl) as [_ Hin].
    destruct (Hin Sample.author eq_refl) as (listed & Hrun & _ & _ & Hall).
    rewrite Hrun, Hall; [reflexivity|].
    left. reflexivity.
Defined.

Lemma approval_authorization_witness :
  approve_novel (Sample.get (Some Sample.reader) ∅) 2 Sample.start
    = (inr (HttpResponseForbidden OnlyAdminApprovesNovel), Sample.start) /\
  approve_novel (Sample.get None ∅) 2 Sample.start
    = (inr (redirect login_url), Sample.start) /\
  novel_is_approved <$>
    novels (db (final (approve_novel (Sample.get (Some Sample.admin) ∅) 2
                         Sample.start))) !! 2 = Some true /\
  db (final (approve_novel (Sample.get (Some Sample.admin) ∅) 1 Sample.start))
    = Sample.store /\
  db (final (approve_chapter (Sample.get (Some Sample.admin) ∅) 10 Sample.start))
    = Sample.store.
Proof.
  split; [|split; [|split; [|split]]].
  - destruct (approval_authorization (Sample.get (Some Sample.reader) ∅) 2
                Sample.start) as (_ & _ & Hforbidden & _).
    apply (Hforbidden Sample.reader); reflexivity.
  - destruct (approval_authorization (Sample.get None ∅) 2 Sample.start)
      as (_ & _ & _ & Hlogin & _).
    apply Hlogin. reflexivity.
  - destruct (approval_authorization (Sample.get (Some Sample.admin) ∅) 2
                Sample.start) as (_ & _ & _ & _ & Hnovel & _).
    apply (Hnovel Sample.admin Sample.emma); reflexivity.
  - destruct (approval_authorization (Sample.get (Some Sample.admin) ∅) 1
                Sample.start) as (_ & _ & _ & _ & Hnovel & _).
    apply (Hnovel Sample.admin Sample.dune); reflexivity.
  - destruct (approval_authorization (Sample.get (Some Sample.admin) ∅) 10
                Sample.start) as (_ & _ & _ & _ & _ & Hchapter).
    apply (Hchapter Sample.admin (Sample.chapter_of_dune 1 true)); reflexivity.
Defined.

Lemma comment_gate_witness :
  outcome (add_comment (Sample.post (Some Sample.reader)
                          {[ "content" := Sample.padded_comment ]})
             10 Sample.start) = comment_redirect 10 /\
  queue (final (add_comment (Sample.post (Some Sample.reader)
                               {[ "content" := Sample.padded_comment ]})
                  10 Sample.start)) = [(SUCCESS, CommentPosted)] /\
  add_comment (Sample.post (Some Sample.reader) {[ "content" := "   " ]})
    10 Sample.start
    = (comment_redirect 10,
       {| db := Sample.store; queue := [(ERROR, CommentEmpty)] |}).
Proof.
  destruct (comment_gate (Sample.post (Some Sample.reader)
                            {[ "content" := Sample.padded_comment ]})
              Sample.reader 10 (Sample.chapter_of_dune 1 true) Sample.start
              eq_refl eq_refl eq_refl) as (_ & _ & _ & Hexact).
  destruct Hexact as (Hout & Hqueue & _); [vm_compute; reflexivity|].
  split; [exact Hout|]. split; [exact Hqueue|].
  destruct (comment_gate (Sample.post (Some Sample.reader) {[ "content" := "   " ]})
              Sample.reader 10 (Sample.chapter_of_dune 1 true) Sample.start
              eq_refl eq_refl eq_refl) as (Hempty & _).
  apply Hempty. reflexivity.
Defined.

Lemma next_sort_num_advisory_witness :
  exists existing next,
    add_chapter (Sample.get (Some Sample.author) ∅) 1 Sample.start
      = (inr (render (add_chapter_html (1, Sample.dune) None existing next)),
         Sample.start) /\
    next = 4.
Proof.
  destruct (next_sort_num_advisory (Sample.get (Some Sample.author) ∅)
              Sample.author 1 Sample.dune Sample.start
              eq_refl eq_refl eq_refl eq_refl)
    as (existing & next & Hrun & _ & _ & Hmax).
  exists existing, next. split; [exact Hrun|].
  apply (Hmax 3). split.
  - exists 12, (Sample.chapter_of_dune 3 true). repeat split; reflexivity.
  - assert (map_Forall (fun (_ : Z) c => chapter_novel c = 1 -> sort_num c <= 3)
              (chapters Sample.store)) as Hall
      by (apply (bool_decide_unpack _); vm_compute; exact I).
    intros pk c Hc Hnov. exact (Hall pk c Hc Hnov).
Defined.

Lemma sort_num_validation_witness :
  final (add_chapter (Sample.post (Some Sample.author)
                        {[ "title" := "Book two"; "sort_num" := "2";
                           "content" := "Again" ]}) 1 Sample.start)
    = Sample.start /\
  final (edit_chapter (Sample.post (Some Sample.author)
                         {[ "title" := "Book two"; "sort_num" := "2";
                            "content" := "Again" ]}) 12 Sample.start)
    = Sample.start /\
  add_chapter (Sample.post (Some Sample.author)
                 {[ "title" := "Book two"; "sort_num" := "two";
                    "content" := "Again" ]}) 1 Sample.start
    = (inr (render (add_chapter_html (1, Sample.dune) (Some SortNumNotInteger)
                      (values_list_sort_num (chapters_of 1 Sample.store))
                      (next_sort_num_of
                         (values_list_sort_num (chapters_of 1 Sample.store))))),
       Sample.start).
Proof.
  assert (forall candidate, candidate <> "" ->
            chapter_form (Sample.post (Some Sample.author)
                            {[ "title" := "Book two"; "sort_num" := candidate;
                               "content" := "Again" ]})
              "Book two" candidate "Again") as Hform.
  { intros candidate Hne. repeat split; try reflexivity; try discriminate.
    exact Hne. }
  assert (exists pk c, chapters Sample.store !! pk = Some c /\
                       chapter_novel c = 1 /\ sort_num c = 2 /\ pk <> 12)
    as (pk & c & Hc & Hnov & Hnum & Hpk).
  { exists 11, (Sample.chapter_of_dune 2 false).
    repeat split; (reflexivity || discriminate). }
  split; [|split].
  - destruct (sort_num_validation
                (Sample.post (Some Sample.author)
                   {[ "title" := "Book two"; "sort_num" := "2";
                      "content" := "Again" ]})
                Sample.author Sample.start "Book two" "2" "Again"
                eq_refl (Hform "2" ltac:(discriminate))) as [Hadd _].
    destruct (Hadd 1 Sample.dune eq_refl eq_refl) as [_ Hparsed].
    destruct (Hparsed 2 eq_refl) as (_ & Hsame & _). apply Hsame.
    exists pk, c. repeat split; auto; discriminate.
  - destruct (sort_num_validation
                (Sample.post (Some Sample.author)
                   {[ "title" := "Book two"; "sort_num" := "2";
                      "content" := "Again" ]})
                Sample.author Sample.start "Book two" "2" "Again"
                eq_refl (Hform "2" ltac:(discriminate))) as [_ Hedit].
    destruct (Hedit 12 (Sample.chapter_of_dune 3 true) eq_refl (or_introl eq_refl))
      as [_ Hparsed].
    destruct (Hparsed 2 eq_refl) as (_ & Hsame & _). apply Hsame.
    exists pk, c. repeat split; auto; congruence.
  - destruct (sort_num_validation
                (Sample.post (Some Sample.author)
                   {[ "title" := "Book two"; "sort_num" := "two";
                      "content" := "Again" ]})
                Sample.author Sample.start "Book two" "two" "Again"
                eq_refl (Hform "two" ltac:(discriminate))) as [Hadd _].
    destruct (Hadd 1 Sample.dune eq_refl eq_refl) as [Hbad _].
    apply Hbad. reflexivity.
Defined.

Lemma approve_forbidden_before_lookup_witness :
  approve_novel (Sample.get (Some Sample.reader) ∅) 99 Sample.start
    = (inr (HttpResponseForbidden OnlyAdminApprovesNovel), Sample.start) /\
  approve_chapter (Sample.get (Some Sample.reader) ∅) 99 Sample.start
    = (inr (HttpResponseForbidden OnlyAdminApprovesChapter), Sample.start).
Proof.
  destruct (approve_forbidden_before_lookup (Sample.get (Some Sample.reader) ∅)
              Sample.reader 99 Sample.start eq_refl eq_refl)
    as (Hnovel & Hchapter & _).
  split; assumption.
Defined.

(** * Further properties of the views *)

(** ** Lookups and the text helpers *)

Lemma get_object_or_404_run {A} (table : database -> gmap Z A) pk s :
  get_object_or_404 table pk s =
    match table (db s) !! pk with
    | Some row => (inr (pk, row), s)
    | None => (inl Http404, s)
    end.
Proof.
  unfold get_object_or_404. rewrite bind_run. simpl.
  destruct (table (db s) !! pk); reflexivity.
Qed.

Lemma lstrip_by_head space s :
  Text.lstrip_by space s = "" \/
  exists c r, Text.lstrip_by space s = String c r /\ space c = false.
Proof.
  induction s as [|c s IH]; simpl; [left; reflexivity|].
  destruct (space c) eqn:Hc; [exact IH|right; eauto].
Qed.

Lemma rstrip_by_idempotent space s :
  Text.rstrip_by space (Text.rstrip_by space s) = Text.rstrip_by space s.
Proof.
  induction s as [|c s IH]; simpl; [reflexivity|].
  destruct (Text.rstrip_by space s) as [|c' r] eqn:Hr.
  - destruct (space c) eqn:Hc; simpl; [reflexivity|]. rewrite Hc. reflexivity.
  - simpl in *. rewrite IH. reflexivity.
Qed.

Lemma rstrip_by_head space c r :
  space c = false ->
  exists r', Text.rstrip_by space (String c r) = String c r'.
Proof.
  intros Hc. simpl. destruct (Text.rstrip_by space r); [|eauto].
  rewrite Hc. eauto.
Qed.

(** Stripping twice is stripping once. *)
Lemma strip_idempotent s : Text.strip (Text.strip s) = Text.strip s.
Proof.
  unfold Text.strip.
  destruct (lstrip_by_head Text.isspace s) as [->|(c & r & -> & Hc)]; [reflexivity|].
  destruct (rstrip_by_head Text.isspace c r Hc) as [r' Hr'].
  assert (Text.lstrip_by Text.isspace (String c r') = String c r') as Hl
    by (simpl; rewrite Hc; reflexivity).
  rewrite Hr', Hl, <- Hr'. apply rstrip_by_idempotent.
Qed.

(** ** The catalogue and the reading views *)

(** X1: whatever the query parameters, the novel list leaves the state as it
    was, and it either raises [ValueError] or renders novels of the store
    that are approved, with all categories and the parameters echoed. *)
Theorem novel_list_only_approved request s :
  final (novel_list request s) = s /\
  (outcome (novel_list request s) = inl ValueError \/
   exists shown,
     outcome (novel_list request s)
       = inr (render (novel_list_html shown (categories (db s))
                        (get_or (GET request) "category" "")
                        (get_or (GET request) "keyword" ""))) /\
     forall pk n, shown !! pk = Some n ->
       novels (db s) !! pk = Some n /\ novel_is_approved n = true).
Proof.
  destruct (Text.isdigit (get_or (GET request) "category" "")) eqn:Hdigit.
  - destruct (Text.int (get_or (GET request) "category" "")) as [k|] eqn:Hint.
    + destruct (novel_list_selects request s) as (shown & Hrun & Hshown).
      { right. rewrite Hint. eauto. }
      rewrite Hrun. split; [reflexivity|]. right. exists shown.
      split; [reflexivity|]. intros pk n Hn. apply Hshown in Hn. tauto.
    + rewrite (novel_list_raises request s Hdigit Hint).
      split; [reflexivity|left; reflexivity].
  - destruct (novel_list_selects request s) as (shown & Hrun & Hshown).
    { left. exact Hdigit. }
    rewrite Hrun. split; [reflexivity|]. right. exists shown.
    split; [reflexivity|]. intros pk n Hn. apply Hshown in Hn. tauto.
Qed.

(** X2: the chapter list and the chapter page never change the state,
    whoever asks and whatever the answer; a key that finds no row is
    answered not-found (for the chapter list, once signed in). *)
Theorem reading_views_change_nothing request pk s :
  final (chapter_list request pk s) = s /\
  final (chapter_detail request pk s) = s /\
  (forall u, user request = Some u -> novels (db s) !! pk = None ->
     outcome (chapter_list request pk s) = inl Http404) /\
  (chapters (db s) !! pk = None ->
     outcome (chapter_detail request pk s) = inl Http404).
Proof.
  split; [|split; [|split]].
  - unfold chapter_list, login_required.
    destruct (user request) as [u|]; [|reflexivity].
    rewrite bind_run, get_object_or_404_run.
    destruct (novels (db s) !! pk); reflexivity.
  - unfold chapter_detail. rewrite bind_run, get_object_or_404_run.
    destruct (chapters (db s) !! pk) as [c|]; [|reflexivity]. simpl.
    destruct (negb _); [|reflexivity].
    unfold raise_named. rewrite Http404_unbound. reflexivity.
  - intros u Hu Hnone. unfold chapter_list. signed_in Hu.
    rewrite bind_run, get_object_or_404_run, Hnone. reflexivity.
  - intros Hnone. unfold chapter_detail.
    rewrite bind_run, get_object_or_404_run, Hnone. reflexivity.
Qed.


(** X3: the comments on a chapter page are exactly the approved comments
    of that chapter: pending comments and comments of other chapters are
    left out, for every viewer, the author of a comment included. *)
Theorem chapter_detail_comments request chapter_id c s :
  chapters (db s) !! chapter_id = Some c ->
  can_view (user request) c ->
  exists shown,
    comments_shown (outcome (chapter_detail request chapter_id s)) = Some shown /\
    forall pk cm, shown !! pk = Some cm <->
      comments (db s) !! pk = Some cm /\ comment_chapter cm = chapter_id /\
      comment_is_approved cm = true.
Proof.
  intros Hc Hyes.
  destruct (chapter_detail_shown request chapter_id c s Hc Hyes) as (paragraphs & ->).
  unfold outcome; simpl. eexists. split; [reflexivity|].
  intros pk cm. unfold approved_comments, comments_of.
  rewrite !map_lookup_filter_Some. simpl. tauto.
Qed.


(** ** Adding chapters *)

Lemma create_lookup_inv {A} (row : A) (table : gmap Z A) pk found :
  create row table !! pk = Some found ->
  (pk = next_pk table /\ found = row) \/
  (pk <> next_pk table /\ table !! pk = Some found).
Proof.
  unfold create. rewrite lookup_insert_Some.
  intros [[<- <-]|[Hne Hold]]; [left|right]; auto.
Qed.

(** What [add_chapter] can do to the state: nothing, or create the one
    pending chapter of the form, under a number the novel does not use. *)
Lemma add_chapter_effect request novel_id s :
  final (add_chapter request novel_id s) = s \/
  exists u n title content k,
    user request = Some u /\ novels (db s) !! novel_id = Some n /\
    novel_uploader n = user_id u /\
    ~ duplicate_ordering (db s) novel_id k None /\
    final (add_chapter request novel_id s) =
      {| db := {| novels := novels (db s);
                  chapters :=
                    create {| chapter_novel := novel_id;
                              chapter_title := title;
                              sort_num := k;
                              chapter_content := content;
                              chapter_uploader := user_id u;
                              chapter_is_approved := false |}
                           (chapters (db s));
                  categories := categories (db s);
                  comments := comments (db s) |};
         queue := queue s |}.
Proof.
  unfold add_chapter, login_required.
  destruct (user request) as [u|] eqn:Hu; [|left; reflexivity].
  rewrite bind_run, get_object_or_404_run.
  destruct (novels (db s) !! novel_id) as [n|] eqn:Hn; [|left; reflexivity].
  simpl. case_bool_decide as Hup; [left; reflexivity|].
  rewrite bind_run. simpl.
  destruct (method request); [left; reflexivity|].
  destruct (negb _ || negb _ || negb _); [left; reflexivity|].
  destruct (Text.int _) as [k|]; [|left; reflexivity].
  destruct (exists_ _) eqn:Hdup; [left; reflexivity|].
  right. exists u, n. eexists _, _, k.
  split; [reflexivity|]. split; [reflexivity|].
  split; [destruct (decide (novel_uploader n = user_id u)); tauto|].
  split; [|reflexivity].
  rewrite <- duplicate_on_add, Hdup. discriminate.
Qed.

Lemma advisory_number_is_free d novel_id :
  ~ duplicate_ordering d novel_id
      (next_sort_num_of (values_list_sort_num (chapters_of novel_id d))) None.
Proof.
  intros (pk & c & Hc & Hnov & Hnum & _).
  destruct (next_sort_num_of_spec d novel_id) as [_ Hsome].
  destruct Hsome as (m & [_ Hmax] & Hnext); [eauto|].
  specialize (Hmax pk c Hc Hnov). simpl in Hnext. lia.
Qed.

(** X5: only the uploader of a novel adds chapters to it: every other
    signed-in user, a superuser too, is answered Forbidden, and a novel
    that does not exist is answered not-found; the state stays as it was. *)
Theorem add_chapter_only_uploader request u novel_id s :
  user request = Some u ->
  (novels (db s) !! novel_id = None ->
   add_chapter request novel_id s = (inl Http404, s)) /\
  (forall n, novels (db s) !! novel_id = Some n ->
     novel_uploader n <> user_id u ->
     add_chapter request novel_id s
       = (inr (HttpResponseForbidden CannotAddChapter), s)).
Proof.
  intros Hu. split.
  - intros Hnone. unfold add_chapter. signed_in Hu.
    rewrite bind_run, get_object_or_404_run, Hnone. reflexivity.
  - intros n Hn Hup. unfold add_chapter. signed_in Hu. fetch novels Hn.
    simpl. rewrite bool_decide_eq_true_2 by exact Hup. reflexivity.
Qed.

(** X6: a form that passes validation creates one chapter, pending, owned
    by the requester, under a key that was free; every chapter that was
    there stays as it was, no other table and no message changes. *)
Theorem add_chapter_creates_pending request u novel_id n s title candidate content k :
  user request = Some u ->
  novels (db s) !! novel_id = Some n -> novel_uploader n = user_id u ->
  chapter_form request title candidate content ->
  Text.int candidate = Some k ->
  ~ duplicate_ordering (db s) novel_id k None ->
  let after := final (add_chapter request novel_id s) in
  let pk := next_pk (chapters (db s)) in
  outcome (add_chapter request novel_id s) = inr (redirect (chapter_list_url novel_id)) /\
  chapters (db s) !! pk = None /\
  chapters (db after) !! pk
    = Some {| chapter_novel := novel_id; chapter_title := title; sort_num := k;
              chapter_content := content; chapter_uploader := user_id u;
              chapter_is_approved := false |} /\
  (forall pk' c, chapters (db s) !! pk' = Some c -> chapters (db after) !! pk' = Some c) /\
  (forall pk' c, chapters (db after) !! pk' = Some c -> pk' <> pk ->
                 chapters (db s) !! pk' = Some c) /\
  novels (db after) = novels (db s) /\ categories (db after) = categories (db s) /\
  comments (db after) = comments (db s) /\ queue after = queue s.
Proof.
  intros Hu Hn Hup Hform Hint Hfree. simpl.
  rewrite (add_chapter_post request u novel_id n s title candidate content
             Hu Hn Hup Hform), Hint.
  rewrite <- duplicate_on_add in Hfree. apply not_true_is_false in Hfree.
  rewrite Hfree. unfold outcome, final; simpl.
  split; [reflexivity|]. split; [apply next_pk_fresh|].
  split; [apply create_lookup_new|]. split; [intros pk' c; apply create_lookup_old|].
  split; [|auto].
  intros pk' c Hc Hne. apply create_lookup_inv in Hc as [[-> _]|[_ Hc]]; tauto.
Qed.

(** X7: the sort number the form offers is never taken: a form that sends
    it back is accepted and the chapter is stored under that number. *)
Theorem advisory_number_accepted request u novel_id n s title candidate content :
  user request = Some u ->
  novels (db s) !! novel_id = Some n -> novel_uploader n = user_id u ->
  chapter_form request title candidate content ->
  Text.int candidate
    = Some (next_sort_num_of (values_list_sort_num (chapters_of novel_id (db s)))) ->
  outcome (add_chapter request novel_id s) = inr (redirect (chapter_list_url novel_id)) /\
  sort_num <$> chapters (db (final (add_chapter request novel_id s)))
                 !! next_pk (chapters (db s))
    = Some (next_sort_num_of (values_list_sort_num (chapters_of novel_id (db s)))).
Proof.
  intros Hu Hn Hup Hform Hint.
  rewrite (add_chapter_post request u novel_id n s title candidate content
             Hu Hn Hup Hform), Hint.
  pose proof (advisory_number_is_free (db s) novel_id) as Hfree.
  rewrite <- duplicate_on_add in Hfree. apply not_true_is_false in Hfree.
  rewrite Hfree. unfold outcome, final; simpl.
  split; [reflexivity|]. rewrite create_lookup_new. reflexivity.
Qed.

(** X8: after a chapter was added under a number, a second form for the
    same novel whose candidate reads as that number is refused as a
    duplicate, the state unchanged, and the number is among those the
    refusal lists. *)
Theorem add_chapter_twice_refused request request' u novel_id n s
    title candidate content title' candidate' content' k :
  user request = Some u -> user request' = Some u ->
  novels (db s) !! novel_id = Some n -> novel_uploader n = user_id u ->
  chapter_form request title candidate content ->
  chapter_form request' title' candidate' content' ->
  Text.int candidate = Some k -> Text.int candidate' = Some k ->
  ~ duplicate_ordering (db s) novel_id k None ->
  let after := final (add_chapter request novel_id s) in
  final (add_chapter request' novel_id after) = after /\
  exists existing,
    outcome (add_chapter request' novel_id after)
      = inr (render (add_chapter_html (novel_id, n)
                       (Some (SortNumExistsAmong k (merge_sort Z.le existing)))
                       existing (next_sort_num_of existing))) /\
    k ∈ existing.
Proof.
  intros Hu Hu' Hn Hup Hform Hform' Hint Hint' Hfree. simpl.
  rewrite (add_chapter_post request u novel_id n s title candidate content
             Hu Hn Hup Hform), Hint.
  pose proof Hfree as Hfree'.
  rewrite <- duplicate_on_add in Hfree'. apply not_true_is_false in Hfree'.
  rewrite Hfree'. unfold final at 1 3; simpl.
  match goal with |- context [add_chapter request' novel_id ?st] =>
    set (after := st) end.
  assert (novels (db after) !! novel_id = Some n) as Hn' by exact Hn.
  assert (duplicate_ordering (db after) novel_id k None) as Hdup.
  { exists (next_pk (chapters (db s))). eexists.
    split; [apply create_lookup_new|]. simpl. repeat split; discriminate. }
  rewrite (add_chapter_post request' u novel_id n after title' candidate' content'
             Hu' Hn' Hup Hform'), Hint'.
  pose proof Hdup as Hdup'. rewrite <- duplicate_on_add in Hdup'. rewrite Hdup'.
  unfold outcome, final; simpl. split; [reflexivity|].
  eexists. split; [reflexivity|].
  apply values_list_sort_num_elem.
  destruct Hdup as (pk & c & Hc & Hnov & Hnum & _). exists pk, c.
  rewrite chapters_of_lookup. auto.
Qed.

(** ** Editing: who, and what it touches *)

(** What [edit_chapter] can do to the state: nothing, or rewrite the
    title, number and content of the one chapter and reset its flag. *)
Lemma edit_chapter_effect request chapter_id s :
  final (edit_chapter request chapter_id s) = s \/
  exists u c title content k,
    user request = Some u /\ chapters (db s) !! chapter_id = Some c /\
    (chapter_uploader c = user_id u \/ is_superuser u = true) /\
    ~ duplicate_ordering (db s) (chapter_novel c) k (Some chapter_id) /\
    final (edit_chapter request chapter_id s) =
      {| db := {| novels := novels (db s);
                  chapters :=
                    <[chapter_id := {| chapter_novel := chapter_novel c;
                                       chapter_title := title;
                                       sort_num := k;
                                       chapter_content := content;
                                       chapter_uploader := chapter_uploader c;
                                       chapter_is_approved := false |}]>
                      (chapters (db s));
                  categories := categories (db s);
                  comments := comments (db s) |};
         queue := queue s ++ [(SUCCESS, ChapterEdited)] |}.
Proof.
  unfold edit_chapter, login_required.
  destruct (user request) as [u|] eqn:Hu; [|left; reflexivity].
  rewrite bind_run, get_object_or_404_run.
  destruct (chapters (db s) !! chapter_id) as [c|] eqn:Hc; [|left; reflexivity].
  simpl.
  destruct (bool_decide (chapter_uploader c ≠ user_id u) && negb (is_superuser u))
    eqn:Hmay; [left; reflexivity|].
  destruct (method request); [left; reflexivity|].
  destruct (negb _ || negb _ || negb _); [left; reflexivity|].
  destruct (Text.int _) as [k|]; [|left; reflexivity].
  rewrite bind_run. simpl.
  destruct (exists_ _) eqn:Hdup; [left; reflexivity|].
  right. exists u, c. eexists _, _, k.
  split; [reflexivity|]. split; [reflexivity|]. split.
  { apply andb_false_iff in Hmay as [Hup|Hsu].
    - apply bool_decide_eq_false in Hup. left.
      destruct (decide (chapter_uploader c = user_id u)); tauto.
    - right. destruct (is_superuser u); [reflexivity|discriminate]. }
  split; [|reflexivity].
  rewrite <- duplicate_on_edit, Hdup. discriminate.
Qed.

(** What [approve_chapter] can do to the state: nothing, or set the flag
    of the one chapter. *)
Lemma approve_chapter_effect request chapter_id s :
  final (approve_chapter request chapter_id s) = s \/
  exists c,
    chapters (db s) !! chapter_id = Some c /\
    final (approve_chapter request chapter_id s) =
      {| db := {| novels := novels (db s);
                  chapters :=
                    <[chapter_id := {| chapter_novel := chapter_novel c;
                                       chapter_title := chapter_title c;
                                       sort_num := sort_num c;
                                       chapter_content := chapter_content c;
                                       chapter_uploader := chapter_uploader c;
                                       chapter_is_approved := true |}]>
                      (chapters (db s));
                  categories := categories (db s);
                  comments := comments (db s) |};
         queue := queue s ++ [(SUCCESS, ChapterApproved)] |}.
Proof.
  unfold approve_chapter, login_required.
  destruct (user request) as [u|] eqn:Hu; [|left; reflexivity].
  destruct (is_superuser u); simpl; [|left; reflexivity].
  rewrite bind_run, get_object_or_404_run.
  destruct (chapters (db s) !! chapter_id) as [c|] eqn:Hc; [|left; reflexivity].
  right. exists c. split; reflexivity.
Qed.

Lemma unique_sort_nums_create d row :
  unique_sort_nums d ->
  ~ duplicate_ordering d (chapter_novel row) (sort_num row) None ->
  forall pk1 c1 pk2 c2,
    create row (chapters d) !! pk1 = Some c1 ->
    create row (chapters d) !! pk2 = Some c2 ->
    chapter_novel c1 = chapter_novel c2 -> sort_num c1 = sort_num c2 -> pk1 = pk2.
Proof.
  intros Huniq Hfree pk1 c1 pk2 c2 H1 H2 Hnov Hnum.
  apply create_lookup_inv in H1 as [[-> ->]|[Hne1 H1]];
    apply create_lookup_inv in H2 as [[-> ->]|[Hne2 H2]].
  - reflexivity.
  - exfalso. apply Hfree. exists pk2, c2. repeat split; auto; discriminate.
  - exfalso. apply Hfree. exists pk1, c1. repeat split; auto; discriminate.
  - exact (Huniq pk1 c1 pk2 c2 H1 H2 Hnov Hnum).
Qed.

Lemma unique_sort_nums_insert d pk c row :
  unique_sort_nums d ->
  chapters d !! pk = Some c -> chapter_novel row = chapter_novel c ->
  ~ duplicate_ordering d (chapter_novel c) (sort_num row) (Some pk) ->
  forall pk1 c1 pk2 c2,
    <[pk := row]> (chapters d) !! pk1 = Some c1 ->
    <[pk := row]> (chapters d) !! pk2 = Some c2 ->
    chapter_novel c1 = chapter_novel c2 -> sort_num c1 = sort_num c2 -> pk1 = pk2.
Proof.
  intros Huniq Hc Hsame Hfree pk1 c1 pk2 c2 H1 H2 Hnov Hnum.
  apply lookup_insert_Some in H1 as [[<- <-]|[Hne1 H1]];
    apply lookup_insert_Some in H2 as [[<- <-]|[Hne2 H2]].
  - reflexivity.
  - exfalso. apply Hfree. exists pk2, c2.
    repeat split; auto; congruence.
  - exfalso. apply Hfree. exists pk1, c1.
    repeat split; auto; congruence.
  - exact (Huniq pk1 c1 pk2 c2 H1 H2 Hnov Hnum).
Qed.

(** X9: if no two chapters of a novel share a sort number, this is still so
    after [add_chapter], [edit_chapter] and [approve_chapter], on every
    request. *)
Theorem sort_nums_stay_unique request pk s :
  unique_sort_nums (db s) ->
  unique_sort_nums (db (final (add_chapter request pk s))) /\
  unique_sort_nums (db (final (edit_chapter request pk s))) /\
  unique_sort_nums (db (final (approve_chapter request pk s))).
Proof.
  intros Huniq. split; [|split].
  - destruct (add_chapter_effect request pk s)
      as [->|(u & n & title & content & k & _ & _ & _ & Hfree & ->)];
      [exact Huniq|].
    unfold unique_sort_nums; simpl.
    apply (unique_sort_nums_create (db s)); [exact Huniq|exact Hfree].
  - destruct (edit_chapter_effect request pk s)
      as [->|(u & c & title & content & k & _ & Hc & _ & Hfree & ->)];
      [exact Huniq|].
    unfold unique_sort_nums; simpl.
    apply (unique_sort_nums_insert (db s) pk c); auto.
  - destruct (approve_chapter_effect request pk s) as [->|(c & Hc & ->)];
      [exact Huniq|].
    unfold unique_sort_nums; simpl.
    apply (unique_sort_nums_insert (db s) pk c); auto. simpl.
    intros (pk' & c' & Hc' & Hnov & Hnum & Hne).
    apply Hne. f_equal. exact (Huniq pk' c' pk c Hc' Hc Hnov Hnum).
Qed.

(** X10: [edit_chapter] answers not-found for a missing chapter, Forbidden
    for a user who is neither its uploader nor a superuser, the form with
    the required-fields error when title, sort number or content is
    missing or empty, and the bare form on a request that is no POST; the
    state stays as it was in each case. *)
Theorem edit_chapter_refusals request u chapter_id s :
  user request = Some u ->
  (chapters (db s) !! chapter_id = None ->
   edit_chapter request chapter_id s = (inl Http404, s)) /\
  (forall c, chapters (db s) !! chapter_id = Some c ->
     chapter_uploader c <> user_id u -> is_superuser u = false ->
     edit_chapter request chapter_id s
       = (inr (HttpResponseForbidden CannotEditChapter), s)) /\
  (forall c, chapters (db s) !! chapter_id = Some c ->
     chapter_uploader c = user_id u \/ is_superuser u = true ->
     method request = POST_method ->
     truth (POST request !! "title") = false
     \/ truth (POST request !! "sort_num") = false
     \/ truth (POST request !! "content") = false ->
     edit_chapter request chapter_id s
       = (inr (render (edit_chapter_html (chapter_id, c)
                         (Some ChapterFieldsRequired))), s)) /\
  (forall c, chapters (db s) !! chapter_id = Some c ->
     chapter_uploader c = user_id u \/ is_superuser u = true ->
     method request = GET_method ->
     edit_chapter request chapter_id s
       = (inr (render (edit_chapter_html (chapter_id, c) None)), s)).
Proof.
  intros Hu.
  assert (forall c, chapter_uploader c = user_id u \/ is_superuser u = true ->
            bool_decide (chapter_uploader c ≠ user_id u) && negb (is_superuser u)
            = false) as Hmay.
  { intros c [Hup| ->]; apply andb_false_iff; [left|right; reflexivity].
    apply bool_decide_eq_false. tauto. }
  split; [|split; [|split]].
  - intros Hnone. unfold edit_chapter. signed_in Hu.
    rewrite bind_run, get_object_or_404_run, Hnone. reflexivity.
  - intros c Hc Hup Hsu. unfold edit_chapter. signed_in Hu. fetch chapters Hc.
    simpl. rewrite bool_decide_eq_true_2 by exact Hup. rewrite Hsu. reflexivity.
  - intros c Hc Hok Hpost Hempty. unfold edit_chapter. signed_in Hu.
    fetch chapters Hc. simpl. rewrite (Hmay c Hok), Hpost.
    assert (negb (truth (POST request !! "title"))
            || negb (truth (POST request !! "sort_num"))
            || negb (truth (POST request !! "content")) = true) as ->; [|reflexivity].
    destruct Hempty as [-> | [-> | ->]]; simpl;
      rewrite ?orb_true_r; reflexivity.
  - intros c Hc Hok Hget. unfold edit_chapter. signed_in Hu.
    fetch chapters Hc. simpl. rewrite (Hmay c Hok), Hget. reflexivity.
Qed.

(** X11: on every request [edit_chapter] leaves novels, categories,
    comments and every other chapter as they were; it creates and deletes
    no chapter and never changes the novel or the uploader of the one it
    edits. *)
Theorem edit_chapter_touches_one_row request chapter_id s :
  let after := final (edit_chapter request chapter_id s) in
  novels (db after) = novels (db s) /\
  categories (db after) = categories (db s) /\
  comments (db after) = comments (db s) /\
  (forall pk, pk <> chapter_id ->
     chapters (db after) !! pk = chapters (db s) !! pk) /\
  (chapters (db s) !! chapter_id = None -> chapters (db after) !! chapter_id = None) /\
  (forall c, chapters (db s) !! chapter_id = Some c ->
     exists c', chapters (db after) !! chapter_id = Some c' /\
       chapter_novel c' = chapter_novel c /\
       chapter_uploader c' = chapter_uploader c).
Proof.
  simpl.
  destruct (edit_chapter_effect request chapter_id s)
    as [->|(u & c & title & content & k & _ & Hc & _ & _ & ->)].
  - repeat split; auto. intros c Hc. eauto.
  - simpl. split; [reflexivity|]. split; [reflexivity|]. split; [reflexivity|].
    split; [|split].
    + intros pk Hne. apply lookup_insert_ne. congruence.
    + intros Hnone. congruence.
    + intros c0 Hc0. rewrite lookup_insert_eq. eexists. split; [reflexivity|].
      simpl. split; congruence.
Qed.

(** What [edit_novel] can do to the state: nothing, or rewrite title,
    author, category and introduction of the one novel. *)
Lemma edit_novel_effect request novel_id s :
  final (edit_novel request novel_id s) = s \/
  exists n title author category intro,
    novels (db s) !! novel_id = Some n /\
    is_Some (categories (db s) !! category) /\
    final (edit_novel request novel_id s) =
      {| db := {| novels :=
                    <[novel_id := {| novel_title := title;
                                     novel_author := author;
                                     novel_category := category;
                                     novel_intro := intro;
                                     novel_uploader := novel_uploader n;
                                     novel_is_approved := novel_is_approved n |}]>
                      (novels (db s));
                  chapters := chapters (db s);
                  categories := categories (db s);
                  comments := comments (db s) |};
         queue := queue s ++ [(SUCCESS, NovelEdited)] |}.
Proof.
  unfold edit_novel, login_required.
  destruct (user request) as [u|] eqn:Hu; [|left; reflexivity].
  rewrite bind_run, get_object_or_404_run.
  destruct (novels (db s) !! novel_id) as [n|] eqn:Hn; [|left; reflexivity].
  simpl.
  destruct (bool_decide (novel_uploader n ≠ user_id u) && negb (is_superuser u));
    [left; reflexivity|].
  destruct (method request); [left; reflexivity|].
  destruct (negb _ || negb _ || negb _); [left; reflexivity|].
  rewrite bind_run. unfold int_or_raise.
  destruct (Text.int _) as [k|]; [|left; reflexivity]. simpl.
  rewrite bind_run, get_object_or_404_run.
  destruct (categories (db s) !! k) as [cat|] eqn:Hcat; [|left; reflexivity].
  right. exists n. eexists _, _, k, _.
  split; [reflexivity|]. split; [eauto|reflexivity].
Qed.

(** X12: [edit_novel] answers not-found for a missing novel, Forbidden for
    a user who is neither its uploader nor a superuser, the form with the
    required-fields error when title, author or category is missing or
    empty, raises [ValueError] on a category that is no integer and
    answers not-found for a category that does not exist; the state stays
    as it was in each case. *)
Theorem edit_novel_refusals request u novel_id s :
  user request = Some u ->
  (novels (db s) !! novel_id = None ->
   edit_novel request novel_id s = (inl Http404, s)) /\
  (forall n, novels (db s) !! novel_id = Some n -> ~ manages u n ->
     edit_novel request novel_id s
       = (inr (HttpResponseForbidden CannotEditNovel), s)) /\
  (forall n, novels (db s) !! novel_id = Some n -> manages u n ->
     method request = POST_method ->
     truth (POST request !! "title") = false
     \/ truth (POST request !! "author") = false
     \/ truth (POST request !! "category") = false ->
     edit_novel request novel_id s
       = (inr (render (edit_novel_html (Some NovelFieldsRequired) (novel_id, n)
                         (categories (db s)))), s)) /\
  (forall n title author category,
     novels (db s) !! novel_id = Some n -> manages u n ->
     novel_form request title author category ->
     (Text.int category = None ->
      edit_novel request novel_id s = (inl ValueError, s)) /\
     (forall pk, Text.int category = Some pk -> categories (db s) !! pk = None ->
      edit_novel request novel_id s = (inl Http404, s))).
Proof.
  intros Hu. split; [|split; [|split]].
  - intros Hnone. unfold edit_novel. signed_in Hu.
    rewrite bind_run, get_object_or_404_run, Hnone. reflexivity.
  - intros n Hn Hno. unfold edit_novel. signed_in Hu. fetch novels Hn.
    simpl. rewrite not_manages_test, bool_decide_eq_true_2 by exact Hno.
    reflexivity.
  - intros n Hn Hman Hpost Hempty. unfold edit_novel. signed_in Hu.
    fetch novels Hn. simpl.
    rewrite not_manages_test, bool_decide_eq_false_2 by tauto. rewrite Hpost.
    assert (negb (truth (POST request !! "title"))
            || negb (truth (POST request !! "author"))
            || negb (truth (POST request !! "category")) = true) as ->; [|reflexivity].
    destruct Hempty as [-> | [-> | ->]]; simpl;
      rewrite ?orb_true_r; reflexivity.
  - intros n title author category Hn Hman
      (Hpost & Ht & Htne & Ha & Hane & Hc & Hcne).
    split.
    + intros Hint. unfold edit_novel. signed_in Hu. fetch novels Hn. simpl.
      rewrite not_manages_test, bool_decide_eq_false_2 by tauto.
      rewrite Hpost, Ht, Ha, Hc. rewrite !truth_Some by assumption. simpl.
      unfold int_or_raise. rewrite Hint. reflexivity.
    + intros pk Hint Hnone. unfold edit_novel. signed_in Hu. fetch novels Hn.
      simpl. rewrite not_manages_test, bool_decide_eq_false_2 by tauto.
      rewrite Hpost, Ht, Ha, Hc. rewrite !truth_Some by assumption. simpl.
      unfold int_or_raise. rewrite Hint, bind_run. simpl.
      rewrite bind_run, get_object_or_404_run, Hnone. reflexivity.
Qed.

(** X13: on every request [edit_novel] leaves chapters, categories,
    comments and every other novel as they were; it creates and deletes no
    novel, keeps the uploader and the approval flag of the one it edits,
    and when it changes the novel the category it stores exists. *)
Theorem edit_novel_touches_one_row request novel_id s :
  let after := final (edit_novel request novel_id s) in
  chapters (db after) = chapters (db s) /\
  categories (db after) = categories (db s) /\
  comments (db after) = comments (db s) /\
  (forall pk, pk <> novel_id -> novels (db after) !! pk = novels (db s) !! pk) /\
  (novels (db s) !! novel_id = None -> novels (db after) !! novel_id = None) /\
  (forall n, novels (db s) !! novel_id = Some n ->
     exists n', novels (db after) !! novel_id = Some n' /\
       novel_uploader n' = novel_uploader n /\
       novel_is_approved n' = novel_is_approved n /\
       (n' = n \/ is_Some (categories (db s) !! novel_category n'))).
Proof.
  simpl.
  destruct (edit_novel_effect request novel_id s)
    as [->|(n & title & author & category & intro & Hn & Hcat & ->)].
  - repeat split; auto. intros n Hn. exists n. auto.
  - simpl. split; [reflexivity|]. split; [reflexivity|]. split; [reflexivity|].
    split; [|split].
    + intros pk Hne. apply lookup_insert_ne. congruence.
    + intros Hnone. congruence.
    + intros n0 Hn0. rewrite lookup_insert_eq. eexists.
      split; [reflexivity|]. simpl.
      split; [congruence|]. split; [congruence|]. right. exact Hcat.
Qed.

(** ** Approval: what it touches, and what readers see afterwards *)

Lemma approve_novel_effect request novel_id s :
  final (approve_novel request novel_id s) = s \/
  exists n,
    novels (db s) !! novel_id = Some n /\
    final (approve_novel request novel_id s) =
      {| db := {| novels :=
                    <[novel_id := {| novel_title := novel_title n;
                                     novel_author := novel_author n;
                                     novel_category := novel_category n;
                                     novel_intro := novel_intro n;
                                     novel_uploader := novel_uploader n;
                                     novel_is_approved := true |}]>
                      (novels (db s));
                  chapters := chapters (db s);
                  categories := categories (db s);
                  comments := comments (db s) |};
         queue := queue s ++ [(SUCCESS, NovelApproved)] |}.
Proof.
  unfold approve_novel, login_required.
  destruct (user request) as [u|] eqn:Hu; [|left; reflexivity].
  destruct (is_superuser u); simpl; [|left; reflexivity].
  rewrite bind_run, get_object_or_404_run.
  destruct (novels (db s) !! novel_id) as [n|] eqn:Hn; [|left; reflexivity].
  right. exists n. split; reflexivity.
Qed.

(** The chapter list a signed-in viewer gets. *)
Lemma chapter_list_run request u novel_id n s :
  user request = Some u -> novels (db s) !! novel_id = Some n ->
  chapter_list request novel_id s =
    (inr (render (chapter_list_html (novel_id, n)
                    (if bool_decide (~ manages u n)
                     then approved_chapters (chapters_of novel_id (db s))
                     else chapters_of novel_id (db s)))), s).
Proof.
  intros Hu Hn. unfold chapter_list. signed_in Hu. fetch novels Hn.
  rewrite bind_run. simpl. rewrite not_manages_test. reflexivity.
Qed.

(** X14: approving a novel changes no chapter, no comment, no other novel
    and no field of the novel but the flag, and approving a chapter changes
    no novel, no comment, no other chapter and no other field; a superuser
    approving a key that finds no row is answered not-found. *)
Theorem approval_touches_only_the_flag request pk s :
  let after_novel := final (approve_novel request pk s) in
  let after_chapter := final (approve_chapter request pk s) in
  (chapters (db after_novel) = chapters (db s) /\
   comments (db after_novel) = comments (db s) /\
   (forall pk', pk' <> pk ->
      novels (db after_novel) !! pk' = novels (db s) !! pk') /\
   (forall n', novels (db after_novel) !! pk = Some n' ->
      exists n, novels (db s) !! pk = Some n /\
        novel_title n' = novel_title n /\ novel_author n' = novel_author n /\
        novel_category n' = novel_category n /\ novel_intro n' = novel_intro n /\
        novel_uploader n' = novel_uploader n)) /\
  (novels (db after_chapter) = novels (db s) /\
   comments (db after_chapter) = comments (db s) /\
   (forall pk', pk' <> pk ->
      chapters (db after_chapter) !! pk' = chapters (db s) !! pk') /\
   (forall c', chapters (db after_chapter) !! pk = Some c' ->
      exists c, chapters (db s) !! pk = Some c /\
        chapter_novel c' = chapter_novel c /\ chapter_title c' = chapter_title c /\
        sort_num c' = sort_num c /\ chapter_content c' = chapter_content c /\
        chapter_uploader c' = chapter_uploader c)) /\
  (forall u, user request = Some u -> is_superuser u = true ->
     (novels (db s) !! pk = None ->
      approve_novel request pk s = (inl Http404, s)) /\
     (chapters (db s) !! pk = None ->
      approve_chapter request pk s = (inl Http404, s))).
Proof.
  simpl. split; [|split].
  - destruct (approve_novel_effect request pk s) as [->|(n & Hn & ->)]; simpl.
    + repeat split; auto. intros n' Hn'. exists n'. auto 10.
    + split; [reflexivity|]. split; [reflexivity|]. split.
      * intros pk' Hne. apply lookup_insert_ne. congruence.
      * intros n'. rewrite lookup_insert_eq. intros [= <-]. exists n. auto 10.
  - destruct (approve_chapter_effect request pk s) as [->|(c & Hc & ->)]; simpl.
    + repeat split; auto. intros c' Hc'. exists c'. auto 10.
    + split; [reflexivity|]. split; [reflexivity|]. split.
      * intros pk' Hne. apply lookup_insert_ne. congruence.
      * intros c'. rewrite lookup_insert_eq. intros [= <-]. exists c. auto 10.
  - intros u Hu Hsu. split; intros Hnone.
    + unfold approve_novel. signed_in Hu. rewrite Hsu. simpl.
      rewrite bind_run, get_object_or_404_run, Hnone. reflexivity.
    + unfold approve_chapter. signed_in Hu. rewrite Hsu. simpl.
      rewrite bind_run, get_object_or_404_run, Hnone. reflexivity.
Qed.

(** X15: after an edit that passes validation the chapter is pending: an
    anonymous visitor is not shown its page, and the chapter list of a
    signed-in visitor who is neither the novel's uploader nor a superuser
    no longer has it. *)
Theorem edited_chapter_leaves_the_lists request u chapter_id c s
    title candidate content k :
  user request = Some u ->
  chapters (db s) !! chapter_id = Some c ->
  chapter_uploader c = user_id u \/ is_superuser u = true ->
  chapter_form request title candidate content ->
  Text.int candidate = Some k ->
  ~ duplicate_ordering (db s) (chapter_novel c) k (Some chapter_id) ->
  let after := final (edit_chapter request chapter_id s) in
  (forall visitor, user visitor = None ->
     page_shown (outcome (chapter_detail visitor chapter_id after)) = None) /\
  (forall visitor v n,
     user visitor = Some v -> novels (db s) !! chapter_novel c = Some n ->
     ~ manages v n ->
     exists listed,
       chapters_listed (outcome (chapter_list visitor (chapter_novel c) after))
         = Some listed /\
       listed !! chapter_id = None).
Proof.
  intros Hu Hc Hmay Hform Hint Hfree. simpl.
  rewrite (edit_chapter_post request u chapter_id c s title candidate content
             Hu Hc Hmay Hform), Hint.
  rewrite <- duplicate_on_edit in Hfree. apply not_true_is_false in Hfree.
  rewrite Hfree. unfold final; simpl.
  match goal with |- context [chapter_detail _ chapter_id ?st] =>
    set (after := st) end.
  assert (exists c', chapters (db after) !! chapter_id = Some c' /\
                     chapter_is_approved c' = false) as (c' & Hc' & Hpending).
  { eexists. split; [apply lookup_insert_eq|reflexivity]. }
  assert (novels (db after) = novels (db s)) as Hnovels by reflexivity.
  clearbody after. split.
  - intros visitor Hv.
    rewrite (chapter_detail_hidden visitor chapter_id c' after Hc'); [reflexivity|].
    rewrite Hv. intros [Hok|(v & Hsome & _)]; congruence.
  - intros visitor v n Hv Hn Hno. rewrite <- Hnovels in Hn.
    rewrite (chapter_list_run visitor v (chapter_novel c) n after Hv Hn).
    rewrite bool_decide_eq_true_2 by exact Hno.
    unfold outcome; simpl. eexists. split; [reflexivity|].
    destruct (approved_chapters (chapters_of (chapter_novel c) (db after)) !! chapter_id)
      as [c''|] eqn:Hlisted; [|reflexivity].
    apply approved_chapters_lookup in Hlisted as [Hin Hok].
    apply chapters_of_lookup in Hin as [Hin _]. congruence.
Qed.

(** X16: after a superuser approved a chapter, its page is rendered for
    every visitor and every signed-in visitor finds it, approved, in the
    chapter list of its novel. *)
Theorem approved_chapter_is_shown request u chapter_id c s :
  user request = Some u -> is_superuser u = true ->
  chapters (db s) !! chapter_id = Some c ->
  let after := final (approve_chapter request chapter_id s) in
  (forall visitor,
     exists page, page_shown (outcome (chapter_detail visitor chapter_id after))
                  = Some page) /\
  (forall visitor v n,
     user visitor = Some v -> novels (db s) !! chapter_novel c = Some n ->
     exists listed,
       chapters_listed (outcome (chapter_list visitor (chapter_novel c) after))
         = Some listed /\
       chapter_is_approved <$> listed !! chapter_id = Some true).
Proof.
  intros Hu Hsu Hc. simpl.
  rewrite (approve_chapter_superuser request u chapter_id c s Hu Hsu Hc).
  unfold final; simpl.
  match goal with |- context [chapter_detail _ chapter_id ?st] =>
    set (after := st) end.
  set (c' := {| chapter_novel := chapter_novel c; chapter_title := chapter_title c;
                sort_num := sort_num c; chapter_content := chapter_content c;
                chapter_uploader := chapter_uploader c;
                chapter_is_approved := true |}).
  assert (chapters (db after) !! chapter_id = Some c') as Hc'
    by apply lookup_insert_eq.
  assert (novels (db after) = novels (db s)) as Hnovels by reflexivity.
  clearbody after. split.
  - intros visitor.
    destruct (chapter_detail_shown visitor chapter_id c' after Hc') as (ps & ->).
    { left. reflexivity. }
    eexists. reflexivity.
  - intros visitor v n Hv Hn. rewrite <- Hnovels in Hn.
    rewrite (chapter_list_run visitor v (chapter_novel c) n after Hv Hn).
    unfold outcome; simpl. eexists. split; [reflexivity|].
    assert (chapters_of (chapter_novel c) (db after) !! chapter_id = Some c') as Hin
      by (apply chapters_of_lookup; auto).
    case_bool_decide.
    + assert (approved_chapters (chapters_of (chapter_novel c) (db after)) !! chapter_id
              = Some c') as -> by (apply approved_chapters_lookup; auto).
      reflexivity.
    + rewrite Hin. reflexivity.
Qed.

(** ** Comments *)

(** What [add_comment] can do to the store: nothing, or create the one
    comment, whose text passed the gate. *)
Lemma add_comment_effect request chapter_id s :
  db (final (add_comment request chapter_id s)) = db s \/
  exists u content,
    user request = Some u /\ is_Some (chapters (db s) !! chapter_id) /\
    content = Text.strip (get_or (POST request) "content" "") /\
    content <> "" /\ (String.length content <= 500)%nat /\
    db (final (add_comment request chapter_id s)) =
      {| novels := novels (db s);
         chapters := chapters (db s);
         categories := categories (db s);
         comments :=
           create {| comment_chapter := chapter_id;
                     comment_user := user_id u;
                     comment_content := content;
                     comment_is_approved := comment_is_approved_default |}
                  (comments (db s)) |}.
Proof.
  unfold add_comment, login_required.
  destruct (user request) as [u|] eqn:Hu; [|left; reflexivity].
  rewrite bind_run, get_object_or_404_run.
  destruct (chapters (db s) !! chapter_id) as [c|] eqn:Hc; [|left; reflexivity].
  simpl. destruct (method request); [left; reflexivity|].
  destruct (Text.truthy _) eqn:Ht; simpl; [|left; reflexivity].
  destruct (Z.gtb_spec (Z.of_nat (String.length
              (Text.strip (get_or (POST request) "content" "")))) 500) as [Hlong|Hfits];
    [left; reflexivity|].
  right. exists u. eexists. split; [reflexivity|]. split; [eauto|].
  split; [reflexivity|]. split; [|split; [lia|reflexivity]].
  intros E. rewrite E in Ht. discriminate.
Qed.

(** X17: for a signed-in user [add_comment] answers not-found for a missing
    chapter whatever the method, only redirects on a request that is no
    POST, and treats a form without a content field as an empty comment. *)
Theorem add_comment_edges request u chapter_id s :
  user request = Some u ->
  (chapters (db s) !! chapter_id = None ->
   add_comment request chapter_id s = (inl Http404, s)) /\
  (forall c, chapters (db s) !! chapter_id = Some c ->
     method request = GET_method ->
     add_comment request chapter_id s = (comment_redirect chapter_id, s)) /\
  (forall c, chapters (db s) !! chapter_id = Some c ->
     method request = POST_method -> POST request !! "content" = None ->
     add_comment request chapter_id s
       = (comment_redirect chapter_id,
          {| db := db s; queue := queue s ++ [(ERROR, CommentEmpty)] |})).
Proof.
  intros Hu. split; [|split].
  - intros Hnone. unfold add_comment. signed_in Hu.
    rewrite bind_run, get_object_or_404_run, Hnone. reflexivity.
  - intros c Hc Hget. unfold add_comment. signed_in Hu. fetch chapters Hc.
    simpl. rewrite Hget. reflexivity.
  - intros c Hc Hpost Hnone.
    rewrite (add_comment_post request u chapter_id c s Hu Hpost Hc). simpl.
    unfold get_or. rewrite Hnone. reflexivity.
Qed.

(** X18: [add_comment] does not ask whether the user may view the chapter:
    a signed-in user to whom the chapter page is refused can still post a
    comment on that chapter, and it is stored. *)
Theorem comment_on_a_chapter_one_may_not_read request u chapter_id c s :
  user request = Some u -> method request = POST_method ->
  chapters (db s) !! chapter_id = Some c ->
  ~ can_view (Some u) c ->
  let content := Text.strip (get_or (POST request) "content" "") in
  content <> "" -> (String.length content <= 500)%nat ->
  page_shown (outcome (chapter_detail request chapter_id s)) = None /\
  outcome (add_comment request chapter_id s) = comment_redirect chapter_id /\
  comments (db (final (add_comment request chapter_id s)))
    !! next_pk (comments (db s))
    = Some {| comment_chapter := chapter_id; comment_user := user_id u;
              comment_content := content;
              comment_is_approved := comment_is_approved_default |}.
Proof.
  intros Hu Hpost Hc Hno content Hne Hlen. split.
  - rewrite (chapter_detail_hidden request chapter_id c s Hc); [reflexivity|].
    rewrite Hu. exact Hno.
  - rewrite (add_comment_post request u chapter_id c s Hu Hpost Hc). simpl.
    fold content. destruct (comment_fits content Hne Hlen) as [-> ->].
    unfold outcome, final; simpl. split; [reflexivity|].
    apply create_lookup_new.
Qed.

(** X19: if every stored comment is stripped, not empty and of at most 500
    characters, this is still so after [add_comment], on every request. *)
Theorem comments_stay_within_bounds request chapter_id s :
  comments_within_bounds (db s) ->
  comments_within_bounds (db (final (add_comment request chapter_id s))).
Proof.
  intros Hbounds.
  destruct (add_comment_effect request chapter_id s)
    as [->|(u & content & _ & _ & Hcontent & Hne & Hlen & ->)]; [exact Hbounds|].
  intros pk cm Hcm. simpl in Hcm.
  apply create_lookup_inv in Hcm as [[_ ->]|[_ Hcm]]; [|exact (Hbounds pk cm Hcm)].
  simpl. split; [exact Hne|]. split; [exact Hlen|].
  subst content. apply strip_idempotent.
Qed.

(** ** Adding a novel *)

Lemma login_required_reply_user view request u :
  user request = Some u -> login_required_reply view request = view u.
Proof. intros H. unfold login_required_reply. rewrite H. reflexivity. Qed.

Lemma add_novel_post request u s title author category pk cat :
  user request = Some u ->
  novel_form request title author category ->
  Text.int category = Some pk -> categories (db s) !! pk = Some cat ->
  add_novel request s =
    (inr {| response := redirect_to (chapter_list_url (next_pk (novels (db s))));
            flashed := [(SUCCESS, NovelCreated)] |},
     {| db := {| novels :=
                   create {| novel_title := title;
                             novel_author := author;
                             novel_category := pk;
                             novel_intro := get_or (POST request) "intro" "";
                             novel_uploader := user_id u;
                             novel_is_approved := false |}
                          (novels (db s));
                 chapters := chapters (db s);
                 categories := categories (db s);
                 comments := comments (db s) |};
        queue := queue s |}).
Proof.
  intros Hu (Hpost & Ht & Htne & Ha & Hane & Hc & Hcne) Hint Hcat.
  unfold add_novel. rewrite (login_required_reply_user _ _ _ Hu).
  rewrite Hpost, Ht, Ha, Hc. rewrite !truth_Some by assumption. simpl.
  unfold int_or_raise. rewrite Hint, bind_run. simpl.
  fetch categories Hcat. reflexivity.
Qed.

(** What [add_novel] can do to the state: nothing, or create one pending
    novel. *)
Lemma add_novel_effect request s :
  final (add_novel request s) = s \/
  exists row,
    novel_is_approved row = false /\
    is_Some (categories (db s) !! novel_category row) /\
    final (add_novel request s) =
      {| db := {| novels := create row (novels (db s));
                  chapters := chapters (db s);
                  categories := categories (db s);
                  comments := comments (db s) |};
         queue := queue s |}.
Proof.
  unfold add_novel, login_required_reply.
  destruct (user request) as [u|]; [|left; reflexivity].
  destruct (method request); [left; reflexivity|].
  destruct (negb _ || negb _ || negb _); [left; reflexivity|].
  rewrite bind_run. unfold int_or_raise.
  destruct (Text.int _) as [k|]; [|left; reflexivity]. simpl.
  rewrite bind_run, get_object_or_404_run.
  destruct (categories (db s) !! k) as [cat|] eqn:Hcat; [|left; reflexivity].
  right.
  exists {| novel_title := default "" (POST request !! "title");
            novel_author := default "" (POST request !! "author");
            novel_category := k;
            novel_intro := get_or (POST request) "intro" "";
            novel_uploader := user_id u;
            novel_is_approved := false |}.
  split; [reflexivity|]. split; [|reflexivity].
  simpl. rewrite Hcat. eauto.
Qed.

(** The novel list reads the approved novels and the categories only. *)
Lemma novel_list_reads request s s' :
  filter (fun kv : Z * Novel => novel_is_approved kv.2 = true) (novels (db s))
  = filter (fun kv : Z * Novel => novel_is_approved kv.2 = true) (novels (db s')) ->
  categories (db s) = categories (db s') ->
  outcome (novel_list request s) = outcome (novel_list request s').
Proof.
  intros Hnovels Hcats. unfold novel_list. rewrite !bind_run. simpl.
  rewrite Hnovels, Hcats.
  destruct (Text.truthy _ && Text.isdigit _); [|reflexivity].
  unfold int_or_raise. destruct (Text.int _); reflexivity.
Qed.

(** X20: a form that passes validation creates one novel, pending, owned by
    the requester, under a key that was free, and redirects to the chapter
    list of that novel; the novels that were there and the other tables
    stay as they were. *)
Theorem add_novel_creates_pending request u s title author category pk cat :
  user request = Some u ->
  novel_form request title author category ->
  Text.int category = Some pk -> categories (db s) !! pk = Some cat ->
  let after := final (add_novel request s) in
  let novel_id := next_pk (novels (db s)) in
  outcome (add_novel request s)
    = inr {| response := redirect_to (chapter_list_url novel_id);
             flashed := [(SUCCESS, NovelCreated)] |} /\
  novels (db s) !! novel_id = None /\
  novels (db after) !! novel_id
    = Some {| novel_title := title; novel_author := author; novel_category := pk;
              novel_intro := get_or (POST request) "intro" "";
              novel_uploader := user_id u; novel_is_approved := false |} /\
  (forall pk' n, novels (db s) !! pk' = Some n -> novels (db after) !! pk' = Some n) /\
  chapters (db after) = chapters (db s) /\ categories (db after) = categories (db s) /\
  comments (db after) = comments (db s).
Proof.
  intros Hu Hform Hint Hcat. simpl.
  rewrite (add_novel_post request u s title author category pk cat Hu Hform Hint Hcat).
  unfold outcome, final; simpl.
  split; [reflexivity|]. split; [apply next_pk_fresh|].
  split; [apply create_lookup_new|].
  split; [intros pk' n; apply create_lookup_old|auto].
Qed.

(** X21: whatever [add_novel] does, the novel list answers every request
    afterwards as it did before: a new novel is not in the catalogue until
    it is approved. *)
Theorem new_novel_stays_out_of_the_catalogue request visitor s :
  outcome (novel_list visitor (final (add_novel request s)))
  = outcome (novel_list visitor s).
Proof.
  destruct (add_novel_effect request s) as [->|(row & Hpending & _ & ->)];
    [reflexivity|].
  apply novel_list_reads; [|reflexivity]. simpl. unfold create.
  rewrite map_filter_insert_False by (simpl; rewrite Hpending; discriminate).
  rewrite delete_id by apply next_pk_fresh. reflexivity.
Qed.

(** X22: [add_novel] sends an anonymous request to the login page, shows
    the bare form on a request that is no POST, the required-fields error
    when title, author or category is missing or empty, raises
    [ValueError] on a category that is no integer and answers not-found
    for a category that does not exist; nothing is created in any of
    these cases. *)
Theorem add_novel_refusals request s :
  (user request = None ->
   add_novel request s = (inr (answer (redirect_to login_url)), s)) /\
  (forall u, user request = Some u ->
     (method request = GET_method ->
      add_novel request s
        = (inr (answer (add_novel_html None (categories (db s)))), s)) /\
     (method request = POST_method ->
      truth (POST request !! "title") = false
      \/ truth (POST request !! "author") = false
      \/ truth (POST request !! "category") = false ->
      add_novel request s
        = (inr (answer (add_novel_html (Some NovelFieldsRequired)
                          (categories (db s)))), s)) /\
     (forall title author category,
        novel_form request title author category ->
        (Text.int category = None -> add_novel request s = (inl ValueError, s)) /\
        (forall pk, Text.int category = Some pk -> categories (db s) !! pk = None ->
           add_novel request s = (inl Http404, s)))).
Proof.
  split.
  { intros Hu. unfold add_novel, login_required_reply. rewrite Hu. reflexivity. }
  intros u Hu. split; [|split].
  - intros Hget. unfold add_novel. rewrite (login_required_reply_user _ _ _ Hu), Hget.
    reflexivity.
  - intros Hpost Hempty. unfold add_novel.
    rewrite (login_required_reply_user _ _ _ Hu), Hpost.
    assert (negb (truth (POST request !! "title"))
            || negb (truth (POST request !! "author"))
            || negb (truth (POST request !! "category")) = true) as ->; [|reflexivity].
    destruct Hempty as [-> | [-> | ->]]; simpl;
      rewrite ?orb_true_r; reflexivity.
  - intros title author category (Hpost & Ht & Htne & Ha & Hane & Hc & Hcne).
    split.
    + intros Hint. unfold add_novel.
      rewrite (login_required_reply_user _ _ _ Hu), Hpost, Ht, Ha, Hc.
      rewrite !truth_Some by assumption. simpl.
      unfold int_or_raise. rewrite Hint. reflexivity.
    + intros pk Hint Hnone. unfold add_novel.
      rewrite (login_required_reply_user _ _ _ Hu), Hpost, Ht, Ha, Hc.
      rewrite !truth_Some by assumption. simpl.
      unfold int_or_raise. rewrite Hint, bind_run. simpl.
      rewrite bind_run, get_object_or_404_run, Hnone. reflexivity.
Qed.

(** ** Deleting *)

Lemma unique_sort_nums_shrink d d' :
  (forall pk c, chapters d' !! pk = Some c -> chapters d !! pk = Some c) ->
  unique_sort_nums d -> unique_sort_nums d'.
Proof.
  intros Hsub Huniq pk1 c1 pk2 c2 H1 H2. apply Huniq; auto.
Qed.

(** X23: [delete_novel] answers not-found for a missing novel and
    Forbidden, with nothing deleted, for a user who is neither its
    uploader nor a superuser; for these two the novel is gone afterwards,
    every other novel and the categories are as they were. *)
Theorem delete_novel_by_owner_or_superuser request u novel_id s :
  user request = Some u ->
  (novels (db s) !! novel_id = None ->
   delete_novel request novel_id s = (inl Http404, s)) /\
  (forall n, novels (db s) !! novel_id = Some n -> ~ manages u n ->
     delete_novel request novel_id s
       = (inr (answer (forbidden CannotDeleteNovel)), s)) /\
  (forall n, novels (db s) !! novel_id = Some n -> manages u n ->
     let after := final (delete_novel request novel_id s) in
     outcome (delete_novel request novel_id s)
       = inr {| response := redirect_to novel_list_url;
                flashed := [(SUCCESS, NovelDeleted)] |} /\
     novels (db after) !! novel_id = None /\
     (forall pk, pk <> novel_id -> novels (db after) !! pk = novels (db s) !! pk) /\
     categories (db after) = categories (db s)).
Proof.
  intros Hu. split; [|split].
  - intros Hnone. unfold delete_novel. rewrite (login_required_reply_user _ _ _ Hu).
    rewrite bind_run, get_object_or_404_run, Hnone. reflexivity.
  - intros n Hn Hno. unfold delete_novel. rewrite (login_required_reply_user _ _ _ Hu).
    fetch novels Hn. simpl.
    rewrite not_manages_test, bool_decide_eq_true_2 by exact Hno. reflexivity.
  - intros n Hn Hman. simpl. unfold delete_novel.
    rewrite (login_required_reply_user _ _ _ Hu). fetch novels Hn. simpl.
    rewrite not_manages_test, bool_decide_eq_false_2 by tauto.
    rewrite bind_run. unfold outcome, final; simpl.
    split; [reflexivity|]. split; [apply lookup_delete_eq|].
    split; [|reflexivity]. intros pk Hne. apply lookup_delete_ne. congruence.
Qed.

(** X24: [delete_chapter] answers not-found for a missing chapter and
    Forbidden, with nothing deleted, for a user who is neither its
    uploader nor a superuser; for these two the chapter is gone afterwards,
    every other chapter and the novels are as they were, and the redirect
    goes to the chapter list of the chapter's novel. *)
Theorem delete_chapter_by_uploader_or_superuser request u chapter_id s :
  user request = Some u ->
  (chapters (db s) !! chapter_id = None ->
   delete_chapter request chapter_id s = (inl Http404, s)) /\
  (forall c, chapters (db s) !! chapter_id = Some c ->
     chapter_uploader c <> user_id u -> is_superuser u = false ->
     delete_chapter request chapter_id s
       = (inr (answer (forbidden CannotDeleteChapter)), s)) /\
  (forall c, chapters (db s) !! chapter_id = Some c ->
     chapter_uploader c = user_id u \/ is_superuser u = true ->
     let after := final (delete_chapter request chapter_id s) in
     outcome (delete_chapter request chapter_id s)
       = inr {| response := redirect_to (chapter_list_url (chapter_novel c));
                flashed := [(SUCCESS, ChapterDeleted)] |} /\
     chapters (db after) !! chapter_id = None /\
     (forall pk, pk <> chapter_id ->
        chapters (db after) !! pk = chapters (db s) !! pk) /\
     novels (db after) = novels (db s) /\
     categories (db after) = categories (db s)).
Proof.
  intros Hu. split; [|split].
  - intros Hnone. unfold delete_chapter. rewrite (login_required_reply_user _ _ _ Hu).
    rewrite bind_run, get_object_or_404_run, Hnone. reflexivity.
  - intros c Hc Hup Hsu. unfold delete_chapter.
    rewrite (login_required_reply_user _ _ _ Hu). fetch chapters Hc. simpl.
    rewrite bool_decide_eq_true_2 by exact Hup. rewrite Hsu. reflexivity.
  - intros c Hc Hmay. simpl. unfold delete_chapter.
    rewrite (login_required_reply_user _ _ _ Hu). fetch chapters Hc. simpl.
    assert (bool_decide (chapter_uploader c ≠ user_id u) && negb (is_superuser u)
            = false) as ->.
    { apply andb_false_iff. destruct Hmay as [Hup| ->]; [left|right; reflexivity].
      apply bool_decide_eq_false. tauto. }
    rewrite bind_run. unfold outcome, final; simpl.
    split; [reflexivity|]. split; [apply lookup_delete_eq|].
    split; [|auto]. intros pk Hne. apply lookup_delete_ne. congruence.
Qed.

(** X25: [delete_comment] answers not-found for a missing comment and
    Forbidden, with nothing deleted, for a user who is neither its author
    nor a superuser, the uploader of the chapter included; for these two
    the comment is gone afterwards, every other comment, the chapters and
    the novels are as they were. *)
Theorem delete_comment_by_author_or_superuser request u comment_id s :
  user request = Some u ->
  (comments (db s) !! comment_id = None ->
   delete_comment request comment_id s = (inl Http404, s)) /\
  (forall cm, comments (db s) !! comment_id = Some cm ->
     comment_user cm <> user_id u -> is_superuser u = false ->
     delete_comment request comment_id s
       = (inr (answer (forbidden CannotDeleteComment)), s)) /\
  (forall cm, comments (db s) !! comment_id = Some cm ->
     comment_user cm = user_id u \/ is_superuser u = true ->
     let after := final (delete_comment request comment_id s) in
     outcome (delete_comment request comment_id s)
       = inr {| response := redirect_to (chapter_detail_url (comment_chapter cm));
                flashed := [(SUCCESS, CommentDeleted)] |} /\
     comments (db after) !! comment_id = None /\
     (forall pk, pk <> comment_id ->
        comments (db after) !! pk = comments (db s) !! pk) /\
     novels (db after) = novels (db s) /\
     chapters (db after) = chapters (db s) /\
     categories (db after) = categories (db s)).
Proof.
  intros Hu. split; [|split].
  - intros Hnone. unfold delete_comment. rewrite (login_required_reply_user _ _ _ Hu).
    rewrite bind_run, get_object_or_404_run, Hnone. reflexivity.
  - intros cm Hcm Hup Hsu. unfold delete_comment.
    rewrite (login_required_reply_user _ _ _ Hu). fetch comments Hcm. simpl.
    rewrite bool_decide_eq_true_2 by exact Hup. rewrite Hsu. reflexivity.
  - intros cm Hcm Hmay. simpl. unfold delete_comment.
    rewrite (login_required_reply_user _ _ _ Hu). fetch comments Hcm. simpl.
    assert (bool_decide (comment_user cm ≠ user_id u) && negb (is_superuser u)
            = false) as ->.
    { apply andb_false_iff. destruct Hmay as [Hup| ->]; [left|right; reflexivity].
      apply bool_decide_eq_false. tauto. }
    rewrite bind_run. unfold outcome, final; simpl.
    split; [reflexivity|]. split; [apply lookup_delete_eq|].
    split; [|auto]. intros pk Hne. apply lookup_delete_ne. congruence.
Qed.

(** X26: if no two chapters of a novel share a sort number, this is still so
    after [delete_chapter], [delete_novel] and [delete_comment], on every
    request. *)
Theorem deleting_keeps_sort_nums_unique request pk s :
  unique_sort_nums (db s) ->
  unique_sort_nums (db (final (delete_chapter request pk s))) /\
  unique_sort_nums (db (final (delete_novel request pk s))) /\
  unique_sort_nums (db (final (delete_comment request pk s))).
Proof.
  intros Huniq. split; [|split]; apply (unique_sort_nums_shrink (db s)); auto.
  - unfold delete_chapter, login_required_reply.
    destruct (user request) as [u|]; [|auto].
    rewrite bind_run, get_object_or_404_run.
    destruct (chapters (db s) !! pk) as [c|]; [|auto]. simpl.
    destruct (_ && _); [auto|]. rewrite bind_run. unfold final; simpl.
    intros k c' Hc'. apply lookup_delete_Some in Hc'. tauto.
  - unfold delete_novel, login_required_reply.
    destruct (user request) as [u|]; [|auto].
    rewrite bind_run, get_object_or_404_run.
    destruct (novels (db s) !! pk) as [n|]; [|auto]. simpl.
    destruct (_ && _); [auto|]. rewrite bind_run. unfold final; simpl.
    intros k c' Hc'. apply map_lookup_filter_Some in Hc'. tauto.
  - unfold delete_comment, login_required_reply.
    destruct (user request) as [u|]; [|auto].
    rewrite bind_run, get_object_or_404_run.
    destruct (comments (db s) !! pk) as [cm|]; [|auto]. simpl.
    destruct (_ && _); [auto|]. rewrite bind_run. unfold final; simpl. auto.
Qed.

(** ** The catalogue on well-formed categories, and the foreign keys *)


Lemma is_Some_insert_keeps {A} (m : gmap Z A) k row j :
  is_Some (m !! k) -> is_Some (m !! j) -> is_Some (<[k := row]> m !! j).
Proof.
  intros Hk Hj. destruct (decide (k = j)) as [->|Hne].
  - rewrite lookup_insert_eq. eauto.
  - rewrite lookup_insert_ne by exact Hne. exact Hj.
Qed.

Lemma is_Some_create_keeps {A} (m : gmap Z A) row j :
  is_Some (m !! j) -> is_Some (create row m !! j).
Proof. intros [old Hold]. exists old. apply create_lookup_old, Hold. Qed.

(** X28: if every chapter has its novel, every comment its chapter and
    every novel its category, this is still so after each view that
    creates, edits or approves, on every request. *)
Theorem no_view_leaves_an_orphan request pk s :
  no_orphans (db s) ->
  no_orphans (db (final (add_novel request s))) /\
  no_orphans (db (final (edit_novel request pk s))) /\
  no_orphans (db (final (add_chapter request pk s))) /\
  no_orphans (db (final (edit_chapter request pk s))) /\
  no_orphans (db (final (add_comment request pk s))) /\
  no_orphans (db (final (approve_novel request pk s))) /\
  no_orphans (db (final (approve_chapter request pk s))).
Proof.
  intros (Hchapters & Hcomments & Hnovels).
  split; [|split; [|split; [|split; [|split; [|split]]]]].
  - destruct (add_novel_effect request s) as [->|(row & _ & Hcat & ->)];
      [repeat split; assumption|].
    split; [|split]; simpl.
    + intros k c Hc. apply is_Some_create_keeps. eauto.
    + exact Hcomments.
    + intros k n Hn. apply create_lookup_inv in Hn as [[_ ->]|[_ Hn]]; eauto.
  - destruct (edit_novel_effect request pk s)
      as [->|(n & title & author & category & intro & Hn & Hcat & ->)];
      [repeat split; assumption|].
    split; [|split]; simpl.
    + intros k c Hc. apply is_Some_insert_keeps; eauto.
    + exact Hcomments.
    + intros k n' Hn'. apply lookup_insert_Some in Hn' as [[_ <-]|[_ Hn']]; eauto.
  - destruct (add_chapter_effect request pk s)
      as [->|(u & n & title & content & k & _ & Hn & _ & _ & ->)];
      [repeat split; assumption|].
    split; [|split]; simpl.
    + intros j c Hc. apply create_lookup_inv in Hc as [[_ ->]|[_ Hc]]; simpl; eauto.
    + intros j cm Hcm. apply is_Some_create_keeps. eauto.
    + exact Hnovels.
  - destruct (edit_chapter_effect request pk s)
      as [->|(u & c & title & content & k & _ & Hc & _ & _ & ->)];
      [repeat split; assumption|].
    split; [|split]; simpl.
    + intros j c' Hc'. apply lookup_insert_Some in Hc' as [[_ <-]|[_ Hc']]; simpl; eauto.
    + intros j cm Hcm. apply is_Some_insert_keeps; eauto.
    + exact Hnovels.
  - destruct (add_comment_effect request pk s)
      as [->|(u & content & _ & Hch & _ & _ & _ & ->)];
      [repeat split; assumption|].
    split; [|split]; simpl.
    + exact Hchapters.
    + intros j cm Hcm. apply create_lookup_inv in Hcm as [[_ ->]|[_ Hcm]]; simpl; eauto.
    + exact Hnovels.
  - destruct (approve_novel_effect request pk s) as [->|(n & Hn & ->)];
      [repeat split; assumption|].
    split; [|split]; simpl.
    + intros k c Hc. apply is_Some_insert_keeps; eauto.
    + exact Hcomments.
    + intros k n' Hn'. apply lookup_insert_Some in Hn' as [[_ <-]|[_ Hn']]; simpl; eauto.
  - destruct (approve_chapter_effect request pk s) as [->|(c & Hc & ->)];
      [repeat split; assumption|].
    split; [|split]; simpl.
    + intros j c' Hc'. apply lookup_insert_Some in Hc' as [[_ <-]|[_ Hc']]; simpl; eauto.
    + intros j cm Hcm. apply is_Some_insert_keeps; eauto.
    + exact Hnovels.
Qed.

(** ** The further properties at work on the sample stores *)

Lemma sample_sort_nums_unique : unique_sort_nums Shelf.store.
Proof.
  assert (map_Forall (fun (pk1 : Z) c1 =>
            map_Forall (fun (pk2 : Z) c2 =>
              chapter_novel c1 = chapter_novel c2 -> sort_num c1 = sort_num c2 ->
              pk1 = pk2) (chapters Shelf.store)) (chapters Shelf.store)) as Hall
    by (apply (bool_decide_unpack _); vm_compute; exact I).
  intros pk1 c1 pk2 c2 H1 H2. exact (Hall pk1 c1 H1 pk2 c2 H2).
Defined.

Lemma sample_comments_within_bounds : comments_within_bounds Shelf.store.
Proof.
  assert (map_Forall (fun (_ : Z) cm =>
            comment_content cm <> "" /\
            (String.length (comment_content cm) <= 500)%nat /\
            Text.strip (comment_content cm) = comment_content cm)
            (comments Shelf.store)) as Hall
    by (apply (bool_decide_unpack _); vm_compute; exact I).
  intros pk cm Hcm. exact (Hall pk cm Hcm).
Defined.

Lemma chapter_detail_comments_witness :
  exists shown,
    comments_shown (outcome (chapter_detail (Sample.get None ∅) 10 Shelf.start))
      = Some shown /\
    shown !! 100 = Some Shelf.nice /\ shown !! 101 = None /\ shown !! 102 = None.
Proof.
  destruct (chapter_detail_comments (Sample.get None ∅) 10 Shelf.opening Shelf.start)
    as (shown & Hshown & Hiff).
  - reflexivity.
  - left. reflexivity.
  - exists shown. split; [exact Hshown|]. split; [|split].
    + apply Hiff. repeat split; reflexivity.
    + destruct (shown !! 101) as [cm|] eqn:Hcm; [|reflexivity].
      apply Hiff in Hcm as (Hcm & _ & Hok). vm_compute in Hcm.
      injection Hcm as <-. discriminate Hok.
    + destruct (shown !! 102) as [cm|] eqn:Hcm; [|reflexivity].
      apply Hiff in Hcm as (Hcm & Hch & _). vm_compute in Hcm.
      injection Hcm as <-. discriminate Hch.
Defined.


Lemma add_chapter_only_uploader_witness :
  add_chapter (Sample.post (Some Sample.admin) (Shelf.chapter_fields "4")) 1 Shelf.start
    = (inr (HttpResponseForbidden CannotAddChapter), Shelf.start) /\
  add_chapter (Sample.post (Some Sample.author) (Shelf.chapter_fields "4")) 5 Shelf.start
    = (inl Http404, Shelf.start).
Proof.
  split.
  - destruct (add_chapter_only_uploader
                (Sample.post (Some Sample.admin) (Shelf.chapter_fields "4"))
                Sample.admin 1 Shelf.start eq_refl) as [_ Hrefused].
    apply (Hrefused Sample.dune); [reflexivity|discriminate].
  - destruct (add_chapter_only_uploader
                (Sample.post (Some Sample.author) (Shelf.chapter_fields "4"))
                Sample.author 5 Shelf.start eq_refl) as [Hmissing _].
    apply Hmissing. reflexivity.
Defined.

Lemma chapter_fields_form number :
  number <> "" ->
  chapter_form (Sample.post (Some Sample.author) (Shelf.chapter_fields number))
    "Book four" number "Later".
Proof.
  intros Hne. repeat split; try reflexivity; try discriminate. exact Hne.
Defined.

Lemma novel_fields_form who category :
  category <> "" ->
  novel_form (Sample.post who (Shelf.novel_fields category))
    "Persuasion" "Austen" category.
Proof.
  intros Hne. repeat split; try reflexivity; try discriminate. exact Hne.
Defined.

Lemma add_chapter_creates_pending_witness :
  chapter_is_approved <$>
    chapters (db (final (add_chapter
                           (Sample.post (Some Sample.author) (Shelf.chapter_fields "7"))
                           1 Shelf.start))) !! 13 = Some false /\
  chapters (db (final (add_chapter
                         (Sample.post (Some Sample.author) (Shelf.chapter_fields "7"))
                         1 Shelf.start))) !! 11
    = Some (Sample.chapter_of_dune 2 false).
Proof.
  destruct (add_chapter_creates_pending
              (Sample.post (Some Sample.author) (Shelf.chapter_fields "7"))
              Sample.author 1 Sample.dune Shelf.start "Book four" "7" "Later" 7)
    as (_ & _ & Hnew & Hold & _).
  - reflexivity.
  - reflexivity.
  - reflexivity.
  - apply chapter_fields_form. discriminate.
  - reflexivity.
  - rewrite <- duplicate_on_add. vm_compute. discriminate.
  - split.
    + change 13 with (next_pk (chapters (db Shelf.start))). rewrite Hnew. reflexivity.
    + apply Hold. reflexivity.
Defined.

Lemma advisory_number_accepted_witness :
  outcome (add_chapter (Sample.post (Some Sample.author) (Shelf.chapter_fields "4"))
             1 Shelf.start)
    = inr (redirect (chapter_list_url 1)).
Proof.
  apply (advisory_number_accepted
           (Sample.post (Some Sample.author) (Shelf.chapter_fields "4"))
           Sample.author 1 Sample.dune Shelf.start "Book four" "4" "Later").
  - reflexivity.
  - reflexivity.
  - reflexivity.
  - apply chapter_fields_form. discriminate.
  - vm_compute. reflexivity.
Defined.

Lemma add_chapter_twice_refused_witness :
  final (add_chapter (Sample.post (Some Sample.author) (Shelf.chapter_fields " 7"))
           1 (final (add_chapter
                       (Sample.post (Some Sample.author) (Shelf.chapter_fields "7"))
                       1 Shelf.start)))
  = final (add_chapter (Sample.post (Some Sample.author) (Shelf.chapter_fields "7"))
             1 Shelf.start).
Proof.
  apply (add_chapter_twice_refused
           (Sample.post (Some Sample.author) (Shelf.chapter_fields "7"))
           (Sample.post (Some Sample.author) (Shelf.chapter_fields " 7"))
           Sample.author 1 Sample.dune Shelf.start
           "Book four" "7" "Later" "Book four" " 7" "Later" 7).
  - reflexivity.
  - reflexivity.
  - reflexivity.
  - reflexivity.
  - apply chapter_fields_form. discriminate.
  - apply chapter_fields_form. discriminate.
  - reflexivity.
  - reflexivity.
  - rewrite <- duplicate_on_add. vm_compute. discriminate.
Defined.

Lemma sort_nums_stay_unique_witness :
  unique_sort_nums
    (db (final (add_chapter
                  (Sample.post (Some Sample.author) (Shelf.chapter_fields "7"))
                  1 Shelf.start))) /\
  unique_sort_nums
    (db (final (edit_chapter
                  (Sample.post (Some Sample.author) (Shelf.chapter_fields "7"))
                  11 Shelf.start))).
Proof.
  split.
  - apply (sort_nums_stay_unique
             (Sample.post (Some Sample.author) (Shelf.chapter_fields "7"))
             1 Shelf.start sample_sort_nums_unique).
  - apply (sort_nums_stay_unique
             (Sample.post (Some Sample.author) (Shelf.chapter_fields "7"))
             11 Shelf.start sample_sort_nums_unique).
Defined.

Lemma edit_chapter_refusals_witness :
  edit_chapter (Sample.post (Some Sample.reader) (Shelf.chapter_fields "7"))
    11 Shelf.start
    = (inr (HttpResponseForbidden CannotEditChapter), Shelf.start) /\
  edit_chapter (Sample.post (Some Sample.author) {[ "title" := "Only a title" ]})
    11 Shelf.start
    = (inr (render (edit_chapter_html (11, Sample.chapter_of_dune 2 false)
                      (Some ChapterFieldsRequired))), Shelf.start).
Proof.
  split.
  - destruct (edit_chapter_refusals
                (Sample.post (Some Sample.reader) (Shelf.chapter_fields "7"))
                Sample.reader 11 Shelf.start eq_refl) as (_ & Hrefused & _).
    apply (Hrefused (Sample.chapter_of_dune 2 false));
      [reflexivity|discriminate|reflexivity].
  - destruct (edit_chapter_refusals
                (Sample.post (Some Sample.author) {[ "title" := "Only a title" ]})
                Sample.author 11 Shelf.start eq_refl) as (_ & _ & Hempty & _).
    apply (Hempty (Sample.chapter_of_dune 2 false));
      [reflexivity|left; reflexivity|reflexivity|].
    right. left. reflexivity.
Defined.

Lemma edit_novel_refusals_witness :
  edit_novel (Sample.post (Some Sample.reader) (Shelf.novel_fields "2")) 1 Shelf.start
    = (inr (HttpResponseForbidden CannotEditNovel), Shelf.start) /\
  edit_novel (Sample.post (Some Sample.author) (Shelf.novel_fields "two")) 1 Shelf.start
    = (inl ValueError, Shelf.start) /\
  edit_novel (Sample.post (Some Sample.author) (Shelf.novel_fields "9")) 1 Shelf.start
    = (inl Http404, Shelf.start).
Proof.
  split; [|split].
  - destruct (edit_novel_refusals
                (Sample.post (Some Sample.reader) (Shelf.novel_fields "2"))
                Sample.reader 1 Shelf.start eq_refl) as (_ & Hrefused & _).
    apply (Hrefused Sample.dune); [reflexivity|].
    intros [Hup|Hsu]; discriminate.
  - destruct (edit_novel_refusals
                (Sample.post (Some Sample.author) (Shelf.novel_fields "two"))
                Sample.author 1 Shelf.start eq_refl) as (_ & _ & _ & Hcategory).
    destruct (Hcategory Sample.dune "Persuasion" "Austen" "two") as [Hbad _].
    + reflexivity.
    + left. reflexivity.
    + apply novel_fields_form. discriminate.
    + apply Hbad. reflexivity.
  - destruct (edit_novel_refusals
                (Sample.post (Some Sample.author) (Shelf.novel_fields "9"))
                Sample.author 1 Shelf.start eq_refl) as (_ & _ & _ & Hcategory).
    destruct (Hcategory Sample.dune "Persuasion" "Austen" "9") as [_ Hmissing].
    + reflexivity.
    + left. reflexivity.
    + apply novel_fields_form. discriminate.
    + apply (Hmissing 9); reflexivity.
Defined.

Lemma edited_chapter_leaves_the_lists_witness :
  page_shown (outcome (chapter_detail (Sample.get None ∅) 12
                         (final (edit_chapter
                                   (Sample.post (Some Sample.author)
                                      (Shelf.chapter_fields "3"))
                                   12 Shelf.start)))) = None /\
  exists listed,
    chapters_listed
      (outcome (chapter_list (Sample.get (Some Sample.reader) ∅) 1
                  (final (edit_chapter
                            (Sample.post (Some Sample.author)
                               (Shelf.chapter_fields "3"))
                            12 Shelf.start)))) = Some listed /\
    listed !! 12 = None.
Proof.
  destruct (edited_chapter_leaves_the_lists
              (Sample.post (Some Sample.author) (Shelf.chapter_fields "3"))
              Sample.author 12 (Sample.chapter_of_dune 3 true) Shelf.start
              "Book four" "3" "Later" 3) as [Hpage Hlist].
  - reflexivity.
  - reflexivity.
  - left. reflexivity.
  - apply chapter_fields_form. discriminate.
  - reflexivity.
  - rewrite <- duplicate_on_edit. vm_compute. discriminate.
  - split.
    + apply Hpage. reflexivity.
    + apply (Hlist (Sample.get (Some Sample.reader) ∅) Sample.reader Sample.dune).
      * reflexivity.
      * reflexivity.
      * intros [Hup|Hsu]; discriminate.
Defined.

Lemma approved_chapter_is_shown_witness :
  exists page,
    page_shown (outcome (chapter_detail (Sample.get None ∅) 11
                           (final (approve_chapter (Sample.get (Some Sample.admin) ∅)
                                     11 Shelf.start)))) = Some page.
Proof.
  destruct (approved_chapter_is_shown (Sample.get (Some Sample.admin) ∅)
              Sample.admin 11 (Sample.chapter_of_dune 2 false) Shelf.start)
    as [Hpage _].
  - reflexivity.
  - reflexivity.
  - reflexivity.
  - apply Hpage.
Defined.

Lemma add_comment_edges_witness :
  add_comment (Sample.post (Some Sample.reader) {[ "content" := "Hello" ]})
    99 Shelf.start = (inl Http404, Shelf.start) /\
  add_comment (Sample.get (Some Sample.reader) ∅) 10 Shelf.start
    = (comment_redirect 10, Shelf.start).
Proof.
  split.
  - destruct (add_comment_edges
                (Sample.post (Some Sample.reader) {[ "content" := "Hello" ]})
                Sample.reader 99 Shelf.start eq_refl) as [Hmissing _].
    apply Hmissing. reflexivity.
  - destruct (add_comment_edges (Sample.get (Some Sample.reader) ∅)
                Sample.reader 10 Shelf.start eq_refl) as (_ & Hget & _).
    apply (Hget Shelf.opening); reflexivity.
Defined.

Lemma comment_on_a_chapter_one_may_not_read_witness :
  page_shown (outcome (chapter_detail
                         (Sample.post (Some Sample.reader) {[ "content" := " Hello " ]})
                         11 Shelf.start)) = None /\
  comment_content <$>
    comments (db (final (add_comment
                           (Sample.post (Some Sample.reader)
                              {[ "content" := " Hello " ]})
                           11 Shelf.start))) !! 103 = Some "Hello".
Proof.
  destruct (comment_on_a_chapter_one_may_not_read
              (Sample.post (Some Sample.reader) {[ "content" := " Hello " ]})
              Sample.reader 11 (Sample.chapter_of_dune 2 false) Shelf.start)
    as (Hpage & _ & Hstored).
  - reflexivity.
  - reflexivity.
  - reflexivity.
  - intros [Hok|(u & [= <-] & [Hsu|Hup])]; discriminate.
  - vm_compute. discriminate.
  - vm_compute. lia.
  - split; [exact Hpage|].
    change 103 with (next_pk (comments (db Shelf.start))). rewrite Hstored.
    reflexivity.
Defined.

Lemma comments_stay_within_bounds_witness :
  comments_within_bounds
    (db (final (add_comment
                  (Sample.post (Some Sample.reader) {[ "content" := " Hello " ]})
                  10 Shelf.start))).
Proof.
  apply (comments_stay_within_bounds
           (Sample.post (Some Sample.reader) {[ "content" := " Hello " ]})
           10 Shelf.start sample_comments_within_bounds).
Defined.

Lemma add_novel_creates_pending_witness :
  outcome (add_novel (Sample.post (Some Sample.reader) (Shelf.novel_fields "2"))
             Shelf.start)
    = inr {| response := redirect_to (chapter_list_url 3);
             flashed := [(SUCCESS, NovelCreated)] |} /\
  novel_is_approved <$>
    novels (db (final (add_novel
                         (Sample.post (Some Sample.reader) (Shelf.novel_fields "2"))
                         Shelf.start))) !! 3 = Some false.
Proof.
  destruct (add_novel_creates_pending
              (Sample.post (Some Sample.reader) (Shelf.novel_fields "2"))
              Sample.reader Shelf.start "Persuasion" "Austen" "2" 2
              {| cat_name := "Classics" |})
    as (Hout & _ & Hnew & _).
  - reflexivity.
  - apply novel_fields_form. discriminate.
  - reflexivity.
  - reflexivity.
  - split; [exact Hout|].
    change 3 with (next_pk (novels (db Shelf.start))). rewrite Hnew. reflexivity.
Defined.

Lemma delete_novel_by_owner_or_superuser_witness :
  delete_novel (Sample.get (Some Sample.reader) ∅) 1 Shelf.start
    = (inr (answer (forbidden CannotDeleteNovel)), Shelf.start) /\
  novels (db (final (delete_novel (Sample.get (Some Sample.author) ∅) 1 Shelf.start)))
    !! 1 = None /\
  novels (db (final (delete_novel (Sample.get (Some Sample.author) ∅) 1 Shelf.start)))
    !! 2 = Some Sample.emma.
Proof.
  split; [|split].
  - destruct (delete_novel_by_owner_or_superuser (Sample.get (Some Sample.reader) ∅)
                Sample.reader 1 Shelf.start eq_refl) as (_ & Hrefused & _).
    apply (Hrefused Sample.dune); [reflexivity|].
    intros [Hup|Hsu]; discriminate.
  - destruct (delete_novel_by_owner_or_superuser (Sample.get (Some Sample.author) ∅)
                Sample.author 1 Shelf.start eq_refl) as (_ & _ & Hdone).
    destruct (Hdone Sample.dune) as (_ & Hgone & _);
      [reflexivity|left; reflexivity|exact Hgone].
  - destruct (delete_novel_by_owner_or_superuser (Sample.get (Some Sample.author) ∅)
                Sample.author 1 Shelf.start eq_refl) as (_ & _ & Hdone).
    destruct (Hdone Sample.dune) as (_ & _ & Hkept & _);
      [reflexivity|left; reflexivity|].
    rewrite Hkept by discriminate. reflexivity.
Defined.

Lemma delete_chapter_by_uploader_or_superuser_witness :
  delete_chapter (Sample.get (Some Sample.reader) ∅) 11 Shelf.start
    = (inr (answer (forbidden CannotDeleteChapter)), Shelf.start) /\
  outcome (delete_chapter (Sample.get (Some Sample.admin) ∅) 11 Shelf.start)
    = inr {| response := redirect_to (chapter_list_url 1);
             flashed := [(SUCCESS, ChapterDeleted)] |} /\
  chapters (db (final (delete_chapter (Sample.get (Some Sample.admin) ∅) 11
                         Shelf.start))) !! 11 = None.
Proof.
  split.
  - destruct (delete_chapter_by_uploader_or_superuser
                (Sample.get (Some Sample.reader) ∅) Sample.reader 11 Shelf.start
                eq_refl) as (_ & Hrefused & _).
    apply (Hrefused (Sample.chapter_of_dune 2 false));
      [reflexivity|discriminate|reflexivity].
  - destruct (delete_chapter_by_uploader_or_superuser
                (Sample.get (Some Sample.admin) ∅) Sample.admin 11 Shelf.start
                eq_refl) as (_ & _ & Hdone).
    destruct (Hdone (Sample.chapter_of_dune 2 false)) as (Hout & Hgone & _);
      [reflexivity|right; reflexivity|].
    split; [exact Hout|exact Hgone].
Defined.

Lemma delete_comment_by_author_or_superuser_witness :
  delete_comment (Sample.get (Some Sample.author) ∅) 100 Shelf.start
    = (inr (answer (forbidden CannotDeleteComment)), Shelf.start) /\
  comments (db (final (delete_comment (Sample.get (Some Sample.reader) ∅) 100
                         Shelf.start))) !! 100 = None.
Proof.
  split.
  - destruct (delete_comment_by_author_or_superuser
                (Sample.get (Some Sample.author) ∅) Sample.author 100 Shelf.start
                eq_refl) as (_ & Hrefused & _).
    apply (Hrefused Shelf.nice); [reflexivity|discriminate|reflexivity].
  - destruct (delete_comment_by_author_or_superuser
                (Sample.get (Some Sample.reader) ∅) Sample.reader 100 Shelf.start
                eq_refl) as (_ & _ & Hdone).
    destruct (Hdone Shelf.nice) as (_ & Hgone & _);
      [reflexivity|left; reflexivity|exact Hgone].
Defined.

Lemma deleting_keeps_sort_nums_unique_witness :
  unique_sort_nums
    (db (final (delete_chapter (Sample.get (Some Sample.author) ∅) 11 Shelf.start))).
Proof.
  apply (deleting_keeps_sort_nums_unique (Sample.get (Some Sample.author) ∅) 11
           Shelf.start sample_sort_nums_unique).
Defined.

Lemma sample_no_orphans : no_orphans Shelf.store.
Proof.
  split; [|split].
  - assert (map_Forall (fun (_ : Z) c => is_Some (novels Shelf.store !! chapter_novel c))
              (chapters Shelf.store)) as Hall
      by (apply (bool_decide_unpack _); vm_compute; exact I).
    intros pk c Hc. exact (Hall pk c Hc).
  - assert (map_Forall (fun (_ : Z) cm =>
                          is_Some (chapters Shelf.store !! comment_chapter cm))
              (comments Shelf.store)) as Hall
      by (apply (bool_decide_unpack _); vm_compute; exact I).
    intros pk cm Hcm. exact (Hall pk cm Hcm).
  - assert (map_Forall (fun (_ : Z) n =>
                          is_Some (categories Shelf.store !! novel_category n))
              (novels Shelf.store)) as Hall
      by (apply (bool_decide_unpack _); vm_compute; exact I).
    intros pk n Hn. exact (Hall pk n Hn).
Defined.


Lemma no_view_leaves_an_orphan_witness :
  no_orphans
    (db (final (add_chapter (Sample.post (Some Sample.author) (Shelf.chapter_fields "7"))
                  1 Shelf.start))) /\
  no_orphans
    (db (final (add_novel (Sample.post (Some Sample.reader) (Shelf.novel_fields "2"))
                  Shelf.start))).
Proof.
  destruct (no_view_leaves_an_orphan
              (Sample.post (Some Sample.author) (Shelf.chapter_fields "7"))
              1 Shelf.start sample_no_orphans) as (_ & _ & Hchapter & _).
  destruct (no_view_leaves_an_orphan
              (Sample.post (Some Sample.reader) (Shelf.novel_fields "2"))
              1 Shelf.start sample_no_orphans) as (Hnovel & _).
  split; assumption.
Defined.
